(** * video-converter: a shallow embedding of the transcoding supervisor

    The repository is a browser front end that drives ffmpeg.wasm.  This file
    embeds the parts that carry behaviour:

    - [FileInput.handleFileChange]      (src/common/FileInput.tsx)
    - [Menu.generateResolutionOptions]  (OutputSettingsMenu, dimension-aware)
    - [Lib.generateFFmpegCommand], [Lib.calcTimeoutPerHalfPercent]
                                        (lib/videoAnalysis)
    - [Clamped.calcTimeoutPerHalfPercent]
                                        (the local, clamped estimator)
    - [Transcoder.step]                 (the three transcoder components,
                                         [transcode] cut at its [await]s)
    - [Debug.runDebugTest]              (the diagnostic batch runner)
    - [MenuState.onMount], [MenuState.handleResolutionChange]
                                        (the menu component around the generator)
    - [MenuV1.generateResolutionOptions]
                                        (the menu before it knew the input size)
    - [Analysis.analyzeVideo]           (lib/videoAnalysis)

    Conventions.  A JavaScript [number] that is known to be an integer
    (pixel sizes, byte counts, frame rate, bit rate) is a [Z]; any other
    finite number is an exact rational [Q].  Where the source can produce
    [NaN] or an infinity the embedding returns [option], [None] standing for
    "not a finite number"; where it matters which of them it is (the number
    is printed, compared, or passed to [Math.max]) the embedding uses
    [Js.num].  React state is a record that is passed along; timers are part
    of that record and time advances by explicit events.  An [async]
    function is cut at its [await]s: the part up to the first one runs on the
    call, each later part runs on the event that settles the awaited
    promise. *)

From Stdlib Require Import ZArith QArith Qround Qminmax Lqa Lia Bool List.
From Stdlib Require Import Strings.String Strings.Ascii.
From Stdlib Require Import Numbers.DecimalString Numbers.DecimalPos Sorting.Sorted.
Import ListNotations.

Local Open Scope string_scope.
Local Open Scope Z_scope.

(** ** JavaScript string and number primitives used by the source *)

Module Js.

(** [s.split(sep)] for a one-character separator: never the empty list. *)
Fixpoint split (sep : ascii) (s : string) : list string :=
  match s with
  | EmptyString => [EmptyString]
  | String c rest =>
      if Ascii.eqb c sep then EmptyString :: split sep rest
      else match split sep rest with
           | seg :: segs => String c seg :: segs
           | [] => [String c EmptyString]
           end
  end.

(** [arr.pop()] on the array returned by [split]. *)
Definition pop (segs : list string) : string := last segs EmptyString.

(** [s.replace(a, b)] with string arguments replaces the first match only. *)
Fixpoint replace (a b : ascii) (s : string) : string :=
  match s with
  | EmptyString => EmptyString
  | String c rest =>
      if Ascii.eqb c a then String b rest else String c (replace a b rest)
  end.

(** [hay.includes(needle)]. *)
Fixpoint includes (needle hay : string) : bool :=
  String.prefix needle hay ||
  match hay with
  | EmptyString => false
  | String _ rest => includes needle rest
  end.

(** [s.startsWith(p)]. *)
Definition startsWith (p s : string) : bool := String.prefix p s.

(** [arr.join(sep)]. *)
Definition join (sep : string) (parts : list string) : string :=
  String.concat sep parts.

(** [String(n)] and template interpolation of an integer. *)
Definition ofZ (n : Z) : string := NilEmpty.string_of_int (Z.to_int n).

(** [x || dflt] on strings: the empty string is falsy. *)
Definition orElse (x dflt : string) : string :=
  match x with EmptyString => dflt | _ => x end.

Definition digit (c : ascii) : option Z :=
  let n := Z.of_nat (nat_of_ascii c) in
  if (48 <=? n) && (n <=? 57) then Some (n - 48) else None.

Definition isSpace (c : ascii) : bool :=
  let n := nat_of_ascii c in
  (Nat.eqb n 32 || (Nat.leb 9 n && Nat.leb n 13))%bool.

Fixpoint trimStart (s : string) : string :=
  match s with
  | String c rest => if isSpace c then trimStart rest else s
  | EmptyString => EmptyString
  end.

(** The longest run of leading decimal digits, read as a number; [acc] is
    [None] until the first digit has been seen. *)
Fixpoint leadingDigits (acc : option Z) (s : string) : option Z :=
  match s with
  | EmptyString => acc
  | String c rest =>
      match digit c with
      | Some d =>
          leadingDigits (Some (10 * match acc with Some a => a | None => 0 end + d)) rest
      | None => acc
      end
  end.

(** [parseInt(s, 10)]: leading blanks, an optional sign, then the longest
    digit prefix; [None] is [NaN]. *)
Definition parseInt (s : string) : option Z :=
  match trimStart s with
  | String "-"%char rest => option_map Z.opp (leadingDigits None rest)
  | String "+"%char rest => leadingDigits None rest
  | t => leadingDigits None t
  end.

(** [parseInt(x, 10)] where [x] may be [undefined] (a missing array slot). *)
Definition parseIntOpt (x : option string) : option Z :=
  match x with Some s => parseInt s | None => None end.

(** Every character of [s] is a decimal digit; [acc] accumulates the value. *)
Fixpoint allDigits (acc : Z) (s : string) : option Z :=
  match s with
  | EmptyString => Some acc
  | String c rest =>
      match digit c with
      | Some d => allDigits (10 * acc + d) rest
      | None => None
      end
  end.

(** [Number(s)] on the strings the settings menu builds: the empty string is
    [0], a decimal integer literal with an optional sign is its value.  Every
    other string is sent to [None]: it is [NaN] in JavaScript unless it is one
    of the literal forms (fractions, exponents, hexadecimal, blanks) that this
    embedding leaves out. *)
Definition Number (s : string) : option Z :=
  match s with
  | EmptyString => Some 0
  | String "-"%char (String c r) => option_map Z.opp (allDigits 0 (String c r))
  | String "+"%char (String c r) => allDigits 0 (String c r)
  | String "-"%char EmptyString => None
  | String "+"%char EmptyString => None
  | _ => allDigits 0 s
  end.

(** [Math.round(x)]: the nearest integer, halves towards plus infinity. *)
Definition round (x : Q) : Z := Qfloor (x + (1 # 2)).

(** A number that need not be finite. *)
Inductive num (A : Type) :=
  | Finite (x : A)
  | NaN
  | PosInfinity
  | NegInfinity.

Arguments Finite {A} x.
Arguments NaN {A}.
Arguments PosInfinity {A}.
Arguments NegInfinity {A}.

(** [String(n)] and template interpolation of any integral number. *)
Definition ofNum (n : num Z) : string :=
  match n with
  | Finite x => ofZ x
  | NaN => "NaN"
  | PosInfinity => "Infinity"
  | NegInfinity => "-Infinity"
  end.

(** [a <= b] for a finite [b]: false as soon as [a] is [NaN]. *)
Definition leNum (a : num Z) (b : Z) : bool :=
  match a with
  | Finite x => x <=? b
  | NegInfinity => true
  | _ => false
  end.

(** [h * r] for an integer [h]: zero times an infinity is [NaN]. *)
Definition scale (h : Z) (r : num Q) : num Q :=
  match r with
  | Finite x => Finite (inject_Z h * x)%Q
  | NaN => NaN
  | PosInfinity =>
      if 0 <? h then PosInfinity else if h <? 0 then NegInfinity else NaN
  | NegInfinity =>
      if 0 <? h then NegInfinity else if h <? 0 then PosInfinity else NaN
  end.

(** The delay [setTimeout] uses for a requested [ms]: its integer part, and
    zero when the request is negative or not a number (delays below 2^31). *)
Definition delay (ms : option Q) : Z :=
  match ms with
  | Some q => Z.max 0 (Qfloor q)
  | None => 0
  end.

End Js.

(** ** Shared data *)

(** The fields of a DOM [File] that the source reads. *)
Record File := mkFile {
  name : string;
  type : string;
  size : Z
}.

Record OutputSettings := mkSettings {
  resolution : string;
  framerate : Z;
  bitrate : Z;
  audioMono : bool
}.

(** The analysis of a file of known length.  For a stream of unknown length
    [video.duration] is [Infinity]; such an analysis is not a value of this
    record (the shared estimator then returns no finite number, the clamped
    one its ceiling, the ref-based budget its cap of 600000 ms). *)
Record VideoAnalysis := mkAnalysis {
  inputWidth : Z;
  inputHeight : Z;
  scaleFactor : Q;
  duration : Q;
  inputFramerate : Z
}.

(** [const [outW, outH] = settings.resolution.split('x').map(Number)]. *)
Definition resolutionNumbers (s : OutputSettings) : option Z * option Z :=
  let parts := map Js.Number (Js.split "x" (resolution s)) in
  (match nth_error parts 0 with Some (Some w) => Some w | _ => None end,
   match nth_error parts 1 with Some (Some h) => Some h | _ => None end).

(** [const [widthStr, heightStr] = settings.resolution.split('x')] followed by
    [parseInt(widthStr, 10)], [parseInt(heightStr, 10)]. *)
Definition resolutionInts (s : OutputSettings) : option Z * option Z :=
  let parts := Js.split "x" (resolution s) in
  (Js.parseIntOpt (nth_error parts 0), Js.parseIntOpt (nth_error parts 1)).

(** [a > b] on numbers: false as soon as the left side is [NaN]. *)
Definition gtNum (a : option Z) (b : Z) : bool :=
  match a with Some x => b <? x | None => false end.

(** ** src/common/FileInput.tsx *)

Module FileInput.

(** [1.5 * 1024 * 1024 * 1024]. *)
Definition maxSizeBytes : Q := 1.5 * 1024 * 1024 * 1024.

(** What one call of [handleFileChange] leaves behind: the [error] state and
    the argument handed to [onFileSelected]. *)
Record Result := mkResult {
  error : option string;
  forwarded : option File
}.

Definition handleFileChange (selected : option File) : Result :=
  match selected with
  | None => mkResult None None
  | Some file =>
      if negb (Js.startsWith "video/" (type file)) then
        mkResult (Some "Please select a video file.") None
      else if negb (Qle_bool (inject_Z (size file)) maxSizeBytes) then
        mkResult (Some "File size must be less than 1.5 GB.") None
      else mkResult None (Some file)
  end.

End FileInput.

(** ** OutputSettingsMenu: the dimension-aware option generator *)

Module Menu.

Record ResolutionOption := mkOption {
  label : string;
  width : Z;
  height : Z;
  bitrate : Z
}.

Definition standardHeights : list Z := [240; 360; 480; 720; 1080].

Definition suggestedBitrate (h : Z) : Z :=
  if h <=? 360 then 800
  else if h <=? 480 then 1200
  else if h <=? 720 then 2500
  else 4500.

(** [Math.round((h * aspectRatio) / 2) * 2]. *)
Definition evenWidth (h : Z) (aspectRatio : Q) : Z :=
  Js.round ((inject_Z h * aspectRatio) / 2) * 2.

(** One turn of the [forEach] body: push the option when it does not upscale. *)
Definition pushOption (aspectRatio : Q) (inW inH : Z)
    (options : list ResolutionOption) (h : Z) : list ResolutionOption :=
  let w := evenWidth h aspectRatio in
  if (h <=? inH) && (w <=? inW) then
    options ++ [mkOption (Js.ofZ w ++ "x" ++ Js.ofZ h) w h (suggestedBitrate h)]
  else options.

Definition generateResolutionOptions (aspectRatio : Q) (inW inH : Z)
    : list ResolutionOption :=
  fold_left (pushOption aspectRatio inW inH) standardHeights [].

End Menu.

(** ** lib/videoAnalysis: command builder and timeout estimator *)

(** The argument array.  The source writes this literal out at every use; the
    copies differ in the second element only, which is the parameter here. *)
Definition ffmpegArgs (inputName : string) (settings : OutputSettings)
    : list string :=
  [ "-i"; inputName;
    "-c:v"; "libx264";
    "-preset"; "ultrafast";
    "-vf"; "scale=" ++ Js.replace "x" ":" (resolution settings);
    "-r"; Js.ofZ (framerate settings);
    "-b:v"; Js.ofZ (bitrate settings) ++ "k";
    "-c:a"; "copy" ]
  ++ (if audioMono settings then ["-ac"; "1"] else [])
  ++ [ "output.mp4" ].

(** [inputFile.name.split('.').pop()]. *)
Definition extension (inputFile : File) : string :=
  Js.pop (Js.split "." (name inputFile)).

Module Lib.

Definition generateFFmpegCommand (inputFile : File) (settings : OutputSettings)
    : string :=
  let args := ffmpegArgs ("input." ++ Js.orElse (extension inputFile) "mp4") settings in
  "ffmpeg " ++ Js.join " " args.

(** The local constants of [calcTimeoutPerHalfPercent], one definition each. *)
Definition segmentLength (analysis : VideoAnalysis) : Q :=
  duration analysis * 0.005.

Definition inputPixels (analysis : VideoAnalysis) : Z :=
  inputWidth analysis * inputHeight analysis.

Definition outputPixels (settings : OutputSettings) : option Z :=
  match resolutionNumbers settings with
  | (Some outW, Some outH) => Some (outW * outH)
  | _ => None
  end.

(** [outputPixels / inputPixels]: a zero divisor gives an infinity with the
    sign of the dividend, or [NaN] for 0 / 0 (pixel sizes are not negative,
    so the zero is a positive zero). *)
Definition scaleFactorOf (analysis : VideoAnalysis) (settings : OutputSettings)
    : Js.num Q :=
  match outputPixels settings with
  | Some o =>
      if inputPixels analysis =? 0 then
        if 0 <? o then Js.PosInfinity
        else if o <? 0 then Js.NegInfinity
        else Js.NaN
      else Js.Finite (inject_Z o / inject_Z (inputPixels analysis))%Q
  | None => Js.NaN
  end.

(** [Math.max(1, scaleFactor)]: [NaN] and [Infinity] stay what they are,
    [-Infinity] gives 1. *)
Definition complexity (analysis : VideoAnalysis) (settings : OutputSettings)
    : option Q :=
  match scaleFactorOf analysis settings with
  | Js.Finite r => Some (Qmax 1 r)
  | Js.NegInfinity => Some 1%Q
  | _ => None
  end.

Definition expectedSeconds (analysis : VideoAnalysis) (settings : OutputSettings)
    : option Q :=
  option_map (fun c => segmentLength analysis * c)%Q (complexity analysis settings).

Definition calcTimeoutPerHalfPercent (analysis : VideoAnalysis)
    (settings : OutputSettings) (isSingleThread : bool) : option Q :=
  option_map
    (fun e => if isSingleThread then e * 8 * 1000 else e * 4 * 1000)%Q
    (expectedSeconds analysis settings).

End Lib.

(** ** The estimator local to the single-threaded component
    (src/common/TranscoderDebug.tsx, lines 336-351) *)

Module Clamped.

Definition floorMs : Q := 10000.
Definition ceilingMs : Q := 120000.

(** [outW * outH || 1]: a product that is zero or [NaN] is replaced by 1. *)
Definition outputPixels (settings : OutputSettings) : Z :=
  match resolutionNumbers settings with
  | (Some outW, Some outH) => if outW * outH =? 0 then 1 else outW * outH
  | _ => 1
  end.

Definition scaleRatio (analysis : VideoAnalysis) (settings : OutputSettings) : Q :=
  inject_Z (Lib.inputPixels analysis) / inject_Z (outputPixels settings).

Definition complexityFactor (analysis : VideoAnalysis) (settings : OutputSettings) : Q :=
  Qmax 1 (scaleRatio analysis settings).

Definition expectedSeconds (analysis : VideoAnalysis) (settings : OutputSettings) : Q :=
  Lib.segmentLength analysis * complexityFactor analysis settings.

Definition calcTimeoutPerHalfPercent (analysis : VideoAnalysis)
    (settings : OutputSettings) : Q :=
  let timeoutMs := (expectedSeconds analysis settings * 8 * 1000)%Q in
  Qmax floorMs (Qmin timeoutMs ceilingMs).

End Clamped.

(** ** The transcoder components

    Three components share one shape and are told apart by [Variant]:
    - [MultiRef]: src/common/Transcoder.tsx, first component; the watchdog is
      a [setTimeout] kept in [timeoutRef];
    - [MultiEffect]: src/common/Transcoder.tsx, second component; the watchdog
      is a [useEffect] keyed on [duration], [logMessages.length] and
      [isTranscoding];
    - [SingleEffect]: src/common/SingleThreadedTranscoder.tsx.

    The engine is the environment: it is driven by [writeFile], [exec] and
    [readFile], and answers with progress events, log events and the
    settlement of the promises it has handed out.  A run of [transcode] that
    has passed its guards waits in turn for [fetchFile], for [writeFile] and
    for [exec]; the environment decides when, and how, each of them
    settles.  Runs are told apart by where they wait only: they close over
    the same props and the same analysis. *)

Module Transcoder.

Inductive Variant := MultiRef | MultiEffect | SingleEffect.

Inductive EngineCall :=
  | WriteFile (path : string)
  | Exec (args : list string)
  | ReadFile (path : string).

Record Props := mkProps {
  inputFile : File;
  settings : OutputSettings
}.

Record State := mkState {
  isLoaded : bool;
  isTranscoding : bool;
  progress : Q;
  outputUrl : option string;   (* the blob URL, named by the bytes it holds *)
  error : option string;
  videoAnalysis : option VideoAnalysis;
  logMessages : list string;
  timeoutRef : bool;           (* [timeoutRef.current] is not null *)
  timer : option Z;            (* the pending [setTimeout]: ms left *)
  calls : list EngineCall;     (* engine operations issued, oldest first *)
  inFlight : nat;              (* runs of [transcode] waiting at an [await] *)
  fetching : nat;              (* those of them waiting for [fetchFile] *)
  writing : nat;               (* those of them waiting for [writeFile] *)
  timeouts : nat               (* runs of a watchdog callback so far *)
}.

(** The [await] a run of [transcode] waits at. *)
Inductive Await := AtFetch | AtWrite | AtExec.

Definition pending (w : Await) (s : State) : nat :=
  match w with
  | AtFetch => fetching s
  | AtWrite => writing s
  | AtExec => inFlight s - fetching s - writing s
  end.

(** What happens to a component.  The time of an [Elapse] is not negative. *)
Inductive Event :=
  | Start                          (* a click whose input is fetched and
                                      written before anything else happens *)
  | Elapse (ms : Z)                (* [ms] milliseconds pass *)
  | ProgressEv (p : Q)             (* the engine's [progress] event *)
  | LogEv (message : string)       (* the engine's [log] event *)
  | ExecResolved (data : string)   (* [exec] resolves, [readFile] gives [data] *)
  | ExecRejected (message : string)  (* [exec] rejects with [err.message] *)
  | Click                          (* the button's [onClick]: [transcode()] *)
  | FileFetched                    (* [fetchFile] resolves *)
  | FetchRejected (message : string)
  | FileWritten                    (* [writeFile] resolves *)
  | WriteRejected (message : string).

Definition maxResolutionMessage : string :=
  "Maximum full HD resolution (1920x1080) supported only.".

Definition timeoutMessage (v : Variant) : string :=
  match v with
  | MultiRef => "Processing timeout. Try a shorter video or lower quality settings."
  | MultiEffect => "FFmpeg appears stuck. Try with single thread transcoding."
  | SingleEffect => "FFmpeg appears stuck. Sorry Your browser or device is not supported."
  end.

Definition failureMessage (v : Variant) : string :=
  match v with
  | SingleEffect => "Transcoding failed. The file may be corrupted or unsupported."
  | _ => "Transcoding failed. Try reducing video length or quality settings."
  end.

(** Whether [transcode] compares the parsed resolution with 1920x1080. *)
Definition checksResolution (v : Variant) : bool :=
  match v with
  | MultiRef | MultiEffect => true
  | SingleEffect => false
  end.

(** [width > 1920 || height > 1080] on the [parseInt] results. *)
Definition aboveFullHD (st : OutputSettings) : bool :=
  let '(w, h) := resolutionInts st in
  gtNum w 1920 || gtNum h 1080.

(** [`input.${inputFile.name.split('.').pop() || 'tmp'}`]. *)
Definition inputFilename (p : Props) : string :=
  "input." ++ Js.orElse (extension (inputFile p)) "tmp".

(** The array handed to [ffmpeg.exec]. *)
Definition execArgs (p : Props) : list string :=
  ffmpegArgs (inputFilename p) (settings p).

(** [a > b] on finite numbers. *)
Definition gtQ (a b : Q) : bool := negb (Qle_bool a b).

Definition processingMultiplier (a : VideoAnalysis) : Q :=
  if gtQ (scaleFactor a) 2.5 then 8
  else if gtQ (scaleFactor a) 1.5 then 6
  else 4.

(** [MultiRef]: [Math.min(duration * multiplier * 1000 + baseTimeout, 600000)]. *)
Definition timeoutDuration (a : VideoAnalysis) : Q :=
  Qmin (duration a * processingMultiplier a * 1000 + 120000) 600000.

(** The effect components' [duration] constant (named [watchdogDuration] here,
    [duration] being the analysis field): both pass [false] as the mode. *)
Definition watchdogDuration (p : Props) (va : option VideoAnalysis) : option Q :=
  match va with
  | Some a => Lib.calcTimeoutPerHalfPercent a (settings p) false
  | None => Some 60%Q
  end.

(** The delay of the watchdog a component arms while [a] is the analysis. *)
Definition watchdogDelay (v : Variant) (p : Props) (a : VideoAnalysis) : Z :=
  match v with
  | MultiRef => Js.delay (Some (timeoutDuration a))
  | _ => Js.delay (watchdogDuration p (Some a))
  end.

(** The guards of [transcode]: engine loaded, no job running, analysis in,
    and, where it is checked, a resolution within full HD. *)
Definition accepts (v : Variant) (p : Props) (s : State) : bool :=
  isLoaded s && negb (isTranscoding s)
  && (match videoAnalysis s with Some _ => true | None => false end)
  && negb (checksResolution v && aboveFullHD (settings p)).

(** [transcode], from the click to [await fetchFile(inputFile)]. *)
Definition transcode (v : Variant) (p : Props) (s : State) : State :=
  if negb (isLoaded s) || isTranscoding s then s
  else match videoAnalysis s with
  | None => s
  | Some _ =>
    if checksResolution v && aboveFullHD (settings p) then
      {| isLoaded := isLoaded s; isTranscoding := isTranscoding s;
         progress := progress s; outputUrl := outputUrl s;
         error := Some maxResolutionMessage;
         videoAnalysis := videoAnalysis s; logMessages := logMessages s;
         timeoutRef := timeoutRef s; timer := timer s; calls := calls s;
         inFlight := inFlight s; fetching := fetching s; writing := writing s;
         timeouts := timeouts s |}
    else
      {| isLoaded := isLoaded s; isTranscoding := true;
         progress := 0; outputUrl := None; error := None;
         videoAnalysis := videoAnalysis s; logMessages := [];
         timeoutRef := timeoutRef s; timer := timer s; calls := calls s;
         inFlight := S (inFlight s); fetching := S (fetching s);
         writing := writing s; timeouts := timeouts s |}
  end.

(** [fetchFile] has resolved: [ffmpeg.writeFile] is called. *)
Definition onFetched (p : Props) (s : State) : State :=
  {| isLoaded := isLoaded s; isTranscoding := isTranscoding s;
     progress := progress s; outputUrl := outputUrl s; error := error s;
     videoAnalysis := videoAnalysis s; logMessages := logMessages s;
     timeoutRef := timeoutRef s; timer := timer s;
     calls := calls s ++ [WriteFile (inputFilename p)];
     inFlight := inFlight s; fetching := pred (fetching s);
     writing := S (writing s); timeouts := timeouts s |}.

(** [writeFile] has resolved: [ffmpeg.exec] is called; the ref-based
    component calls [startTimeout()] just before, with the budget of the
    analysis it closed over (a run that got here closed over one). *)
Definition onWritten (v : Variant) (p : Props) (s : State) : State :=
  {| isLoaded := isLoaded s; isTranscoding := isTranscoding s;
     progress := progress s; outputUrl := outputUrl s; error := error s;
     videoAnalysis := videoAnalysis s; logMessages := logMessages s;
     timeoutRef := match v with MultiRef => true | _ => timeoutRef s end;
     timer := match v, videoAnalysis s with
              | MultiRef, Some a => Some (watchdogDelay v p a)
              | _, _ => timer s
              end;
     calls := calls s ++ [Exec (execArgs p)];
     inFlight := inFlight s; fetching := fetching s;
     writing := pred (writing s); timeouts := timeouts s |}.

(** The watchdog callback. *)
Definition onTimeout (v : Variant) (s : State) : State :=
  {| isLoaded := isLoaded s; isTranscoding := false;
     progress := progress s; outputUrl := outputUrl s;
     error := Some (timeoutMessage v);
     videoAnalysis := videoAnalysis s; logMessages := logMessages s;
     timeoutRef := timeoutRef s; timer := None; calls := calls s;
     inFlight := inFlight s; fetching := fetching s; writing := writing s;
     timeouts := S (timeouts s) |}.

(** Time passing: the pending timer runs down and fires when it is due. *)
Definition elapse (v : Variant) (ms : Z) (s : State) : State :=
  match timer s with
  | None => s
  | Some remaining =>
      if remaining <=? ms then onTimeout v s
      else
        {| isLoaded := isLoaded s; isTranscoding := isTranscoding s;
           progress := progress s; outputUrl := outputUrl s; error := error s;
           videoAnalysis := videoAnalysis s; logMessages := logMessages s;
           timeoutRef := timeoutRef s; timer := Some (remaining - ms);
           calls := calls s; inFlight := inFlight s; fetching := fetching s;
           writing := writing s; timeouts := timeouts s |}
  end.

(** [ffmpeg.on('progress', ...)]. *)
Definition onProgress (v : Variant) (p : Q) (s : State) : State :=
  if Qle_bool 0 p && Qle_bool p 1 then
    {| isLoaded := isLoaded s; isTranscoding := isTranscoding s;
       progress := p * 100; outputUrl := outputUrl s; error := error s;
       videoAnalysis := videoAnalysis s; logMessages := logMessages s;
       (* [MultiRef]: clearTimeout(timeoutRef.current); timeoutRef.current = null *)
       timeoutRef := match v with MultiRef => false | _ => timeoutRef s end;
       timer := match v with
                | MultiRef => if timeoutRef s then None else timer s
                | _ => timer s
                end;
       calls := calls s; inFlight := inFlight s; fetching := fetching s;
       writing := writing s; timeouts := timeouts s |}
  else s.

(** [ffmpeg.on('log', ...)]. *)
Definition onLog (message : string) (s : State) : State :=
  {| isLoaded := isLoaded s; isTranscoding := isTranscoding s;
     progress := progress s; outputUrl := outputUrl s; error := error s;
     videoAnalysis := videoAnalysis s;
     logMessages := logMessages s ++ [message];
     timeoutRef := timeoutRef s; timer := timer s; calls := calls s;
     inFlight := inFlight s; fetching := fetching s; writing := writing s;
     timeouts := timeouts s |}.

(** The rest of [transcode] after [await ffmpeg.exec(args)] resolves. *)
Definition onResolved (v : Variant) (data : string) (s : State) : State :=
  {| isLoaded := isLoaded s; isTranscoding := false;
     progress := progress s; outputUrl := Some data; error := error s;
     videoAnalysis := videoAnalysis s; logMessages := logMessages s;
     timeoutRef := match v with MultiRef => false | _ => timeoutRef s end;
     timer := match v with
              | MultiRef => if timeoutRef s then None else timer s
              | _ => timer s
              end;
     calls := calls s ++ [ReadFile "output.mp4"];
     inFlight := pred (inFlight s); fetching := fetching s;
     writing := writing s; timeouts := timeouts s |}.

(** The [catch] and [finally] blocks, entered from the [await] [w]. *)
Definition onRejected (v : Variant) (w : Await) (message : string) (s : State)
    : State :=
  {| isLoaded := isLoaded s; isTranscoding := false;
     progress := progress s; outputUrl := outputUrl s;
     error := match v with
              | SingleEffect =>
                  (* err.message && !err.message.includes('Transcoding terminated') *)
                  if negb (String.eqb message "")
                     && negb (Js.includes "Transcoding terminated" message)
                  then Some (failureMessage v) else error s
              | _ => Some (failureMessage v)
              end;
     videoAnalysis := videoAnalysis s; logMessages := logMessages s;
     timeoutRef := match v with MultiRef => false | _ => timeoutRef s end;
     timer := match v with
              | MultiRef => if timeoutRef s then None else timer s
              | _ => timer s
              end;
     calls := calls s; inFlight := pred (inFlight s);
     fetching := match w with AtFetch => pred (fetching s) | _ => fetching s end;
     writing := match w with AtWrite => pred (writing s) | _ => writing s end;
     timeouts := timeouts s |}.

(** The handler an event runs.  A promise can only settle while a run waits
    for it. *)
Definition handle (v : Variant) (p : Props) (s : State) (ev : Event) : State :=
  match ev with
  | Start | Click => transcode v p s
  | Elapse ms => elapse v ms s
  | ProgressEv x => onProgress v x s
  | LogEv m => onLog m s
  | FileFetched =>
      match pending AtFetch s with O => s | S _ => onFetched p s end
  | FetchRejected m =>
      match pending AtFetch s with O => s | S _ => onRejected v AtFetch m s end
  | FileWritten =>
      match pending AtWrite s with O => s | S _ => onWritten v p s end
  | WriteRejected m =>
      match pending AtWrite s with O => s | S _ => onRejected v AtWrite m s end
  | ExecResolved data =>
      match pending AtExec s with O => s | S _ => onResolved v data s end
  | ExecRejected m =>
      match pending AtExec s with O => s | S _ => onRejected v AtExec m s end
  end.

(** The dependencies of the watchdog effect that an event can change
    ([duration] is a function of the props and of [videoAnalysis], which no
    event touches). *)
Definition effectDeps (s : State) : nat * bool :=
  (List.length (logMessages s), isTranscoding s).

Definition depsChanged (before after : State) : bool :=
  negb (Nat.eqb (fst (effectDeps before)) (fst (effectDeps after))
        && Bool.eqb (snd (effectDeps before)) (snd (effectDeps after))).

(** The watchdog [useEffect]: when a dependency changed, the cleanup clears
    the old timer and the body arms a new one if [isTranscoding]. *)
Definition runEffect (v : Variant) (p : Props) (before after : State) : State :=
  match v with
  | MultiRef => after
  | _ =>
    if depsChanged before after then
      {| isLoaded := isLoaded after; isTranscoding := isTranscoding after;
         progress := progress after; outputUrl := outputUrl after;
         error := error after; videoAnalysis := videoAnalysis after;
         logMessages := logMessages after; timeoutRef := timeoutRef after;
         timer := if isTranscoding after
                  then Some (Js.delay (watchdogDuration p (videoAnalysis after)))
                  else None;
         calls := calls after; inFlight := inFlight after;
         fetching := fetching after; writing := writing after;
         timeouts := timeouts after |}
    else after
  end.

(** One event: its handler, then the effects of the render it causes. *)
Definition react (v : Variant) (p : Props) (s : State) (ev : Event) : State :=
  runEffect v p s (handle v p s ev).

(** [Start] stands for a click that is followed at once by the resolution of
    its own [fetchFile] and [writeFile]. *)
Definition step (v : Variant) (p : Props) (s : State) (ev : Event) : State :=
  match ev with
  | Start =>
      if accepts v p s
      then react v p (react v p (react v p s Click) FileFetched) FileWritten
      else react v p s Click
  | _ => react v p s ev
  end.

Definition run (v : Variant) (p : Props) (s : State) (evs : list Event) : State :=
  fold_left (step v p) evs s.

(** The component once the engine is loaded and the analysis [a] is in. *)
Definition ready (a : VideoAnalysis) : State :=
  {| isLoaded := true; isTranscoding := false; progress := 0;
     outputUrl := None; error := None; videoAnalysis := Some a;
     logMessages := []; timeoutRef := false; timer := None; calls := [];
     inFlight := 0; fetching := 0; writing := 0; timeouts := 0 |}.

(** A keep-alive event: one that puts the watchdog off. *)
Definition keepsAlive (v : Variant) (ev : Event) : bool :=
  match v, ev with
  | MultiRef, ProgressEv x => Qle_bool 0 x && Qle_bool x 1
  | MultiEffect, LogEv _ => true
  | SingleEffect, LogEv _ => true
  | _, _ => false
  end.


End Transcoder.

(** ** The diagnostic batch runner
    (src/common/TranscoderDebug.tsx, first component)

    [ffmpeg.on("log", f)] adds [f] to the engine's listeners; the runner never
    calls [ffmpeg.off].  A listener is the closure of one loop turn: its [res]
    and its own [currentLogs] array, which it alone mutates.  The listeners
    live in the engine object, hence in the state that outlasts the call. *)

Module Debug.

Inductive Status := Pending | Success | Failed | TimedOut.

Record DebugResult := mkResult {
  resolution : string;
  status : Status;
  logs : list string;
  duration : option Q
}.

Record Listener := mkListener {
  res : string;
  currentLogs : list string
}.

Record State := mkState {
  isLoaded : bool;
  isTesting : bool;
  debugResults : list DebugResult;
  listeners : list Listener;             (* in order of registration *)
  calls : list Transcoder.EngineCall     (* engine operations issued *)
}.

(** How [Promise.race([execPromise, timeoutPromise])] settles. *)
Inductive Settled :=
  | Resolved                       (* [exec] resolved first *)
  | Rejected (message : string)    (* [exec] rejected first *)
  | TimerFirst.                    (* the 45 s timer rejected first *)

(** What the environment does during one trial: the log lines the engine
    emits from the registration of the trial's listener until the race
    settles, how the race settles, and the seconds measured. *)
Record Trial := mkTrial {
  emitted : list string;
  settled : Settled;
  seconds : Q
}.

(** How [await ffmpeg.writeFile(inputFilename, await fetchFile(inputFile))],
    which stands before the loop and outside every [try], ends.  A promise
    that rejects ends the call there; one that never settles leaves the
    same state behind. *)
Inductive Upload :=
  | Uploaded          (* both promises resolve *)
  | FetchFailed       (* [fetchFile] rejects: [writeFile] is never called *)
  | WriteFailed.      (* [writeFile] rejects *)

(** The environment of one batch: the upload and the trials. *)
Record Env := mkEnv {
  upload : Upload;
  trial : nat -> Trial
}.

Definition TEST_RESOLUTIONS : list string :=
  ["1920x1080"; "1280x720"; "854x480"; "640x360"].

(** [prev.map(r => r.resolution === res ? f(r) : r)]. *)
Definition updateWhere (target : string) (f : DebugResult -> DebugResult)
    (prev : list DebugResult) : list DebugResult :=
  map (fun r => if String.eqb (resolution r) target then f r else r) prev.

Definition withLogs (l : list string) (r : DebugResult) : DebugResult :=
  {| resolution := resolution r; status := status r; logs := l;
     duration := duration r |}.

(** One log event: every registered listener runs, oldest first; each pushes
    the line on its own array and copies that array into the result whose
    resolution it closed over. *)
Fixpoint notify (message : string) (ls : list Listener)
    (results : list DebugResult) : list Listener * list DebugResult :=
  match ls with
  | [] => ([], results)
  | l :: rest =>
      let l' := mkListener (res l) (currentLogs l ++ [message]) in
      let results' := updateWhere (res l) (withLogs (currentLogs l')) results in
      let '(rest', results'') := notify message rest results' in
      (l' :: rest', results'')
  end.

Definition onLog (message : string) (s : State) : State :=
  let '(ls, results) := notify message (listeners s) (debugResults s) in
  {| isLoaded := isLoaded s; isTesting := isTesting s;
     debugResults := results; listeners := ls; calls := calls s |}.

(** [`debug_input.${inputFile.name.split(".").pop() || "mp4"}`]. *)
Definition inputFilename (inputFile : File) : string :=
  "debug_input." ++ Js.orElse (extension inputFile) "mp4".

Definition trialArgs (inputName r : string) : list string :=
  [ "-i"; inputName; "-t"; "30";
    "-vf"; "scale=" ++ Js.replace "x" ":" r;
    "-c:v"; "libx264"; "-preset"; "ultrafast"; "-an";
    "output_" ++ r ++ ".mp4" ].

(** [err.message] as the [catch] block sees it. *)
Definition errorMessage (o : Settled) : option string :=
  match o with
  | Resolved => None
  | Rejected m => Some m
  | TimerFirst => Some "Timeout"
  end.

(** The [try] / [catch] tail of a loop turn, once the race has settled;
    [mine] is the turn's own [currentLogs]. *)
Definition settle (r : string) (t : Trial) (mine : list string)
    (results : list DebugResult) : list DebugResult :=
  match errorMessage (settled t) with
  | None =>
      updateWhere r
        (fun x => {| resolution := resolution x; status := Success;
                     logs := logs x; duration := Some (seconds t) |})
        results
  | Some m =>
      updateWhere r
        (fun x => {| resolution := resolution x;
                     status := if String.eqb m "Timeout" then TimedOut else Failed;
                     logs := mine ++ ["ERROR: " ++ m];
                     duration := Some (seconds t) |})
        results
  end.

(** One turn of the [for] loop. *)
Definition runTrial (inputName : string) (s : State) (r : string) (t : Trial)
    : State :=
  let registered :=
    {| isLoaded := isLoaded s; isTesting := isTesting s;
       debugResults := debugResults s;
       listeners := listeners s ++ [mkListener r []];
       calls := calls s ++ [Transcoder.Exec (trialArgs inputName r)] |} in
  let raced := fold_left (fun st m => onLog m st) (emitted t) registered in
  let mine := match last (map Some (listeners raced)) None with
              | Some l => currentLogs l
              | None => []
              end in
  {| isLoaded := isLoaded raced; isTesting := isTesting raced;
     debugResults := settle r t mine (debugResults raced);
     listeners := listeners raced; calls := calls raced |}.

(** The [for] loop over [TEST_RESOLUTIONS]; [env i] is the [i]-th turn's
    environment. *)
Fixpoint trials (inputName : string) (env : nat -> Trial) (i : nat)
    (rs : list string) (s : State) : State :=
  match rs with
  | [] => s
  | r :: rest => trials inputName env (S i) rest (runTrial inputName s r (env i))
  end.

(** [runDebugTest]: the state it leaves behind.  When the upload fails, the
    call ends before the loop: nothing resets [isTesting]. *)
Definition runDebugTest (inputFile : option File) (env : Env)
    (s : State) : State :=
  match inputFile with
  | None => s
  | Some f =>
      if negb (isLoaded s) || isTesting s then s
      else
        let started :=
          {| isLoaded := isLoaded s; isTesting := true;
             debugResults := map (fun r => mkResult r Pending [] None) TEST_RESOLUTIONS;
             listeners := listeners s; calls := calls s |} in
        let writing :=
          {| isLoaded := isLoaded started; isTesting := isTesting started;
             debugResults := debugResults started; listeners := listeners started;
             calls := calls started ++ [Transcoder.WriteFile (inputFilename f)] |} in
        match upload env with
        | FetchFailed => started
        | WriteFailed => writing
        | Uploaded =>
            let done := trials (inputFilename f) (trial env) 0 TEST_RESOLUTIONS writing in
            {| isLoaded := isLoaded done; isTesting := false;
               debugResults := debugResults done; listeners := listeners done;
               calls := calls done |}
        end
  end.

(** The component after the engine has loaded, before any batch. *)
Definition loaded : State :=
  {| isLoaded := true; isTesting := false; debugResults := [];
     listeners := []; calls := [] |}.

End Debug.

(** ** Predicates and concrete inputs used by the statements below *)

(** An option that has an even width and does not upscale the input. *)
Definition downscales (inW inH : Z) (o : Menu.ResolutionOption) : Prop :=
  Z.even (Menu.width o) = true /\ Menu.height o <= inH /\ Menu.width o <= inW.

(** A job that is running and has reported nothing yet; [t0] is the number
    of watchdog runs before the job, [tm] the state of the timer. *)
Definition running (a : VideoAnalysis) (t0 : nat) (tm : option Z)
    (s : Transcoder.State) : Prop :=
  Transcoder.isTranscoding s = true /\
  Transcoder.error s = None /\
  Transcoder.outputUrl s = None /\
  Transcoder.timeouts s = t0 /\
  Transcoder.videoAnalysis s = Some a /\
  Transcoder.timer s = tm.

(** A job that has been reported as timed out, with nothing published. *)
Definition timedOut (v : Transcoder.Variant) (t0 : nat) (s : Transcoder.State)
    : Prop :=
  Transcoder.error s = Some (Transcoder.timeoutMessage v) /\
  Transcoder.isTranscoding s = false /\
  Transcoder.outputUrl s = None /\
  Transcoder.timeouts s = S t0 /\
  Transcoder.timer s = None.

(** Where the runs of [transcode] wait: [n] runs in all, [f] of them for
    [fetchFile] and [w] for [writeFile]. *)
Definition waiting (n f w : nat) (s : Transcoder.State) : Prop :=
  Transcoder.inFlight s = n /\ Transcoder.fetching s = f /\ Transcoder.writing s = w.

(** The time that passes in a list of events. *)
Fixpoint elapsed (evs : list Transcoder.Event) : Z :=
  match evs with
  | [] => 0
  | Transcoder.Elapse ms :: rest => ms + elapsed rest
  | _ :: rest => elapsed rest
  end.

(** An event that may reach a running job without putting its watchdog off
    and without ending the job: time passing, an event of the engine that is
    no keep-alive in the component and, in the effect-based components, the
    input being fetched or written. *)
Definition quiet (v : Transcoder.Variant) (ev : Transcoder.Event) : bool :=
  match ev with
  | Transcoder.Elapse ms => 0 <=? ms
  | Transcoder.ProgressEv _ | Transcoder.LogEv _ => negb (Transcoder.keepsAlive v ev)
  | Transcoder.FileFetched | Transcoder.FileWritten =>
      match v with Transcoder.MultiRef => false | _ => true end
  | _ => false
  end.

(** Time passing and events of the engine, of whatever kind. *)
Definition uneventful (ev : Transcoder.Event) : bool :=
  match ev with
  | Transcoder.Elapse ms => 0 <=? ms
  | Transcoder.ProgressEv _ | Transcoder.LogEv _ => true
  | _ => false
  end.


(** Every waiting run of [transcode] beyond the running job was abandoned by
    a watchdog. *)
Definition flightBound (s : Transcoder.State) : Prop :=
  (Transcoder.inFlight s <=
   Transcoder.timeouts s + (if Transcoder.isTranscoding s then 1 else 0))%nat.

(** The part of a result list that log events never touch. *)
Definition outline (rs : list Debug.DebugResult) : list (string * Debug.Status) :=
  map (fun r => (Debug.resolution r, Debug.status r)) rs.

(** The status the [try] / [catch] tail gives a settled race. *)
Definition statusOf (o : Debug.Settled) : Debug.Status :=
  match Debug.errorMessage o with
  | None => Debug.Success
  | Some m => if String.eqb m "Timeout" then Debug.TimedOut else Debug.Failed
  end.

(** A 1920x1080 clip of 120 s, to be scaled to 640x360 at 24 fps, 800 kbps. *)
Definition scenarioSettings : OutputSettings := mkSettings "640x360" 24 800 false.
Definition scenarioAnalysis : VideoAnalysis := mkAnalysis 1920 1080 3 120 30.
Definition scenarioProps : Transcoder.Props :=
  Transcoder.mkProps (mkFile "clip.mov" "video/quicktime" 1048576) scenarioSettings.

(** A file whose name ends in a dot. *)
Definition dottedFile : File := mkFile "clip." "video/mp4" 1048576.

(** An ultra-wide 2560x1080 clip and the largest option the menu offers for it. *)
Definition wideSettings : OutputSettings := mkSettings "2560x1080" 20 4500 false.
Definition wideAnalysis : VideoAnalysis := mkAnalysis 2560 1080 1 120 30.
Definition wideProps : Transcoder.Props :=
  Transcoder.mkProps (mkFile "wide.mov" "video/quicktime" 1048576) wideSettings.



(** A job that stays silent until its watchdog has fired. *)
Definition timedOutJob : list Transcoder.Event :=
  [Transcoder.Start; Transcoder.Elapse 600000].



(** In the ref-based component: a timeout, a second click, and the first
    [exec] resolving while the second run still waits for its input. *)
Definition overlappingJobs : list Transcoder.Event :=
  (timedOutJob
     ++ [Transcoder.Click; Transcoder.ExecResolved "bytes";
         Transcoder.FileFetched; Transcoder.FileWritten])%list.

Definition batchFile : File := mkFile "clip.mov" "video/quicktime" 1048576.

(** A batch whose second trial throws; each trial emits one log line. *)
Definition batchTrials (i : nat) : Debug.Trial :=
  match i with
  | 0%nat => Debug.mkTrial ["line A"] Debug.Resolved 1
  | 1%nat => Debug.mkTrial ["line B"] (Debug.Rejected "boom") 2
  | 2%nat => Debug.mkTrial ["line C"] Debug.Resolved 3
  | _ => Debug.mkTrial ["line D"] Debug.Resolved 4
  end.

Definition batchEnv : Debug.Env := Debug.mkEnv Debug.Uploaded batchTrials.

(** Closes a goal about a concrete run by evaluating it. *)
Ltac by_evaluation :=
  vm_compute; first [reflexivity | discriminate | tauto | lia].

(** ** More of the components *)

(** *** OutputSettingsMenu: the component around the generator
    (src/unnamed/part_000, lines 73-130) *)

Module MenuState.

(** [options[options.length - 1]]: [undefined] on the empty array. *)
Definition lastOption (options : list Menu.ResolutionOption)
    : option Menu.ResolutionOption :=
  last (map Some options) None.

(** The mount effect: the options it stores, the settings after it, and the
    argument of [onChange] when it is called. *)
Definition onMount (aspectRatio : Q) (inW inH : Z) (settings : OutputSettings)
    : list Menu.ResolutionOption * OutputSettings * option OutputSettings :=
  let options := Menu.generateResolutionOptions aspectRatio inW inH in
  match lastOption options with
  | Some defaultResolution =>
      let initialSettings :=
        mkSettings (Menu.label defaultResolution) 20
                   (Menu.bitrate defaultResolution) false in
      (options, initialSettings, Some initialSettings)
  | None => (options, settings, None)
  end.

(** [handleResolutionChange]: the settings after it and the argument of
    [onChange] when it is called. *)
Definition handleResolutionChange (resolutions : list Menu.ResolutionOption)
    (settings : OutputSettings) (resolutionLabel : string)
    : OutputSettings * option OutputSettings :=
  match find (fun r => String.eqb (Menu.label r) resolutionLabel) resolutions with
  | Some selectedRes =>
      let newSettings :=
        mkSettings resolutionLabel (framerate settings)
                   (Menu.bitrate selectedRes) (audioMono settings) in
      (newSettings, Some newSettings)
  | None => (settings, None)
  end.

End MenuState.

(** *** OutputSettingsMenu before it knew the input dimensions
    (src/common/OutputSettingsMenu.tsx, lines 27-35)

    The generator has no guard, so it accepts any number as the aspect
    ratio: the caller's [width / height] is [NaN] or an infinity when the
    height is zero. *)

Module MenuV1.

Record ResolutionOption := mkOption {
  label : string;
  width : Js.num Z;
  height : Z
}.

(** [Math.round((h * aspectRatio) / 2) * 2]: halving, rounding and doubling
    leave [NaN] and the infinities as they are. *)
Definition evenWidth (h : Z) (aspectRatio : Js.num Q) : Js.num Z :=
  match Js.scale h aspectRatio with
  | Js.Finite x => Js.Finite (Js.round (x / 2) * 2)
  | Js.NaN => Js.NaN
  | Js.PosInfinity => Js.PosInfinity
  | Js.NegInfinity => Js.NegInfinity
  end.

Definition generateResolutionOptions (aspectRatio : Js.num Q)
    : list ResolutionOption :=
  fold_left
    (fun (options : list ResolutionOption) (h : Z) =>
       let w := evenWidth h aspectRatio in
       (options ++ [mkOption (Js.ofNum w ++ "x" ++ Js.ofZ h) w h])%list)
    Menu.standardHeights [].

End MenuV1.

(** *** lib/videoAnalysis: [analyzeVideo]
    (src/unnamed/part_000, lines 235-287) *)

Module Analysis.

(** What the [video] element reports once its metadata has loaded. *)
Record Metadata := mkMetadata {
  videoWidth : Z;
  videoHeight : Z;
  videoDuration : Q
}.

(** What the promise resolves with: [null], an analysis whose [scaleFactor]
    is [NaN] or an infinity (its other fields are those of the metadata), or
    an analysis with finite fields. *)
Inductive Outcome :=
  | Null
  | NotFinite (m : Metadata)
  | Finite (a : VideoAnalysis).

(** [Math.max(inputWidth / outputWidth, inputHeight / outputHeight)]; a part
    of the resolution that is missing, not a number or zero takes the
    quotient, and with it the maximum, out of the finite numbers. *)
Definition maxScaleFactor (m : Metadata) (settings : OutputSettings) : option Q :=
  match resolutionNumbers settings with
  | (Some outputWidth, Some outputHeight) =>
      if (outputWidth =? 0) || (outputHeight =? 0) then None
      else Some (Qmax (inject_Z (videoWidth m) / inject_Z outputWidth)
                      (inject_Z (videoHeight m) / inject_Z outputHeight))
  | _ => None
  end.

(** [analyzeVideo]; [loaded] is [None] when the element fires [onerror]. *)
Definition analyzeVideo (inputFile : option File) (settings : OutputSettings)
    (loaded : option Metadata) : Outcome :=
  match inputFile with
  | None => Null
  | Some _ =>
      if String.eqb (resolution settings) "" then Null
      else match loaded with
      | None => Null
      | Some m =>
          match maxScaleFactor m settings with
          | Some maxScale =>
              Finite (mkAnalysis (videoWidth m) (videoHeight m) maxScale
                                 (videoDuration m) 30)
          | None => NotFinite m
          end
      end
  end.

End Analysis.

(** *** The progress bar of the diagnostic batch
    (src/common/TranscoderDebug.tsx, lines 157-166) *)

(** [(debugResults.filter(r => r.status !== "pending").length
      / TEST_RESOLUTIONS.length) * 100]. *)
Definition batchProgress (results : list Debug.DebugResult) : Q :=
  (inject_Z (Z.of_nat (List.length
     (filter (fun r => match Debug.status r with Debug.Pending => false | _ => true end)
             results)))
   / inject_Z (Z.of_nat (List.length Debug.TEST_RESOLUTIONS))) * 100.

(** *** Predicates used by the further properties *)

(** The value of a decimal numeral read from the left, starting from [acc]. *)
Fixpoint uintValue (acc : Z) (d : Decimal.uint) : Z :=
  match d with
  | Decimal.Nil => acc
  | Decimal.D0 l => uintValue (10 * acc + 0) l
  | Decimal.D1 l => uintValue (10 * acc + 1) l
  | Decimal.D2 l => uintValue (10 * acc + 2) l
  | Decimal.D3 l => uintValue (10 * acc + 3) l
  | Decimal.D4 l => uintValue (10 * acc + 4) l
  | Decimal.D5 l => uintValue (10 * acc + 5) l
  | Decimal.D6 l => uintValue (10 * acc + 6) l
  | Decimal.D7 l => uintValue (10 * acc + 7) l
  | Decimal.D8 l => uintValue (10 * acc + 8) l
  | Decimal.D9 l => uintValue (10 * acc + 9) l
  end.

(** The character [c] does not occur in [s]. *)
Fixpoint absent (c : ascii) (s : string) : bool :=
  match s with
  | EmptyString => true
  | String x rest => negb (Ascii.eqb x c) && absent c rest
  end.



(** The watchdog is armed only while a job runs. *)
Definition timerTied (s : Transcoder.State) : Prop :=
  Transcoder.timer s <> None -> Transcoder.isTranscoding s = true.

(** A pending timer is the one [timeoutRef] holds. *)
Definition timerHeld (s : Transcoder.State) : Prop :=
  Transcoder.timer s <> None -> Transcoder.timeoutRef s = true.

(** Nothing is going on: no run of [transcode] waits, no timer is pending,
    and no watchdog has run yet. *)
Definition idle (s : Transcoder.State) : Prop :=
  Transcoder.isTranscoding s = false /\ Transcoder.inFlight s = 0%nat /\
  Transcoder.fetching s = 0%nat /\ Transcoder.writing s = 0%nat /\
  Transcoder.timer s = None /\ Transcoder.timeouts s = 0%nat.

(** Until the first watchdog run of the ref-based component: at most one run
    of [transcode] waits, it is the running job, and a pending timer is the
    one of that job. *)
Definition oneJob (s : Transcoder.State) : Prop :=
  Transcoder.timeouts s = 0%nat ->
  (Transcoder.fetching s + Transcoder.writing s <= Transcoder.inFlight s)%nat /\
  (Transcoder.inFlight s <= (if Transcoder.isTranscoding s then 1 else 0))%nat /\
  timerTied s.

(** The test of the generator's [if], and the option it pushes for a height. *)
Definition fits (aspectRatio : Q) (inW inH h : Z) : bool :=
  (h <=? inH) && (Menu.evenWidth h aspectRatio <=? inW).

Definition optionFor (aspectRatio : Q) (h : Z) : Menu.ResolutionOption :=
  Menu.mkOption
    (Js.ofZ (Menu.evenWidth h aspectRatio) ++ "x" ++ Js.ofZ h)
    (Menu.evenWidth h aspectRatio) h (Menu.suggestedBitrate h).

(** An option of the dimension-aware menu without its bitrate. *)
Definition withoutBitrate (o : Menu.ResolutionOption) : MenuV1.ResolutionOption :=
  MenuV1.mkOption (Menu.label o) (Js.Finite (Menu.width o)) (Menu.height o).



(** The progress shown is a percentage. *)
Definition progressInRange (s : Transcoder.State) : Prop :=
  (0 <= Transcoder.progress s)%Q /\ (Transcoder.progress s <= 100)%Q.

(** A status other than "pending". *)
Definition reported (st : Debug.Status) : bool :=
  match st with Debug.Pending => false | _ => true end.

(** * Properties *)

(** ** File selection *)

Lemma maxSizeBytes_value (n : Z) :
  Qle_bool (inject_Z n) FileInput.maxSizeBytes = true <-> n <= 1610612736.
Proof.
  rewrite Qle_bool_iff. unfold FileInput.maxSizeBytes, Qle. simpl. lia.
Qed.

(** C9.  For every selected file, [handleFileChange] hands the file on to
    [onFileSelected] exactly when its MIME type starts with "video/" and its
    size is at most 1.5 * 1024^3 = 1610612736 bytes; in every other case it
    sets an error message and hands on [null]. *)
Theorem handleFileChange_forwards_iff_valid (file : File) :
  (FileInput.forwarded (FileInput.handleFileChange (Some file)) = Some file <->
     Js.startsWith "video/" (type file) = true /\ size file <= 1610612736) /\
  (FileInput.forwarded (FileInput.handleFileChange (Some file)) = Some file /\
     FileInput.error (FileInput.handleFileChange (Some file)) = None
   \/
   FileInput.forwarded (FileInput.handleFileChange (Some file)) = None /\
     exists message,
       FileInput.error (FileInput.handleFileChange (Some file)) = Some message).
Proof.
  unfold FileInput.handleFileChange.
  destruct (Js.startsWith "video/" (type file)) eqn:Hty; simpl.
  - destruct (Qle_bool (inject_Z (size file)) FileInput.maxSizeBytes) eqn:Hsz; simpl.
    + apply maxSizeBytes_value in Hsz. split; [tauto | left; tauto].
    + split.
      * split; [discriminate |].
        intros [_ Hle]. apply maxSizeBytes_value in Hle. congruence.
      * right. split; [reflexivity | eauto].
  - split.
    + split; [discriminate | intros [H _]; discriminate].
    + right. split; [reflexivity | eauto].
Qed.

(** ** Resolution options *)

Lemma round_times_two_even (x : Q) : Z.even (Js.round x * 2) = true.
Proof. rewrite Z.even_mul. apply orb_true_r. Qed.

Lemma pushOption_keeps (aspect : Q) (inW inH h : Z)
    (acc : list Menu.ResolutionOption) :
  Forall (downscales inW inH) acc ->
  Forall (downscales inW inH) (Menu.pushOption aspect inW inH acc h).
Proof.
  intros Hacc. unfold Menu.pushOption.
  destruct ((h <=? inH) && (Menu.evenWidth h aspect <=? inW)) eqn:Hc; [| exact Hacc].
  apply andb_true_iff in Hc. destruct Hc as [Hh Hw].
  apply Forall_app. split; [exact Hacc |].
  constructor; [| constructor].
  unfold downscales; simpl. repeat split.
  - apply round_times_two_even.
  - lia.
  - lia.
Qed.

Lemma fold_pushOption_keeps (aspect : Q) (inW inH : Z) (hs : list Z) :
  forall acc, Forall (downscales inW inH) acc ->
  Forall (downscales inW inH) (fold_left (Menu.pushOption aspect inW inH) hs acc).
Proof.
  induction hs as [| h hs IH]; intros acc Hacc; simpl; [exact Hacc |].
  apply IH. apply pushOption_keeps. exact Hacc.
Qed.

(** C10.  Every option of the dimension-aware generator has an even width,
    a height of at most the input height and a width of at most the input
    width, whatever the aspect ratio and the input dimensions.  (The aspect
    ratio is a finite number here; the caller's [width / height] can also be
    [NaN] or [Infinity], and then [w <= inputWidth] is false and nothing is
    pushed.) *)
Theorem options_even_and_never_upscale (aspectRatio : Q) (inW inH : Z)
    (o : Menu.ResolutionOption) :
  In o (Menu.generateResolutionOptions aspectRatio inW inH) ->
  Z.even (Menu.width o) = true /\ Menu.height o <= inH /\ Menu.width o <= inW.
Proof.
  intros Hin.
  assert (H : Forall (downscales inW inH)
                (Menu.generateResolutionOptions aspectRatio inW inH)).
  { apply fold_pushOption_keeps. constructor. }
  rewrite Forall_forall in H. exact (H o Hin).
Qed.

Lemma options_even_and_never_upscale_witness :
  Z.even 640 = true /\ 360 <= 1080 /\ 640 <= 1920.
Proof.
  apply (options_even_and_never_upscale (16 # 9) 1920 1080
           (Menu.mkOption "640x360" 640 360 800)).
  vm_compute. right; left; reflexivity.
Defined.

(** The menu does offer a resolution wider than 1920 for an ultra-wide input:
    the generator bounds the height by 1080 and the width by the input only. *)
Lemma menu_offers_wide_resolution :
  In (resolution wideSettings)
     (map Menu.label (Menu.generateResolutionOptions (2560 # 1080) 2560 1080)).
Proof. vm_compute. tauto. Qed.

(** ** Command builder *)

(** For a file name whose last dot-separated part is not empty, the string on
    display is the rendering of the arguments handed to [exec]. *)
Lemma display_matches_exec_when_extension (f : File) (st : OutputSettings) :
  extension f <> "" ->
  Lib.generateFFmpegCommand f st =
  "ffmpeg " ++ Js.join " " (Transcoder.execArgs (Transcoder.mkProps f st)).
Proof.
  intros Hext.
  unfold Lib.generateFFmpegCommand, Transcoder.execArgs, Transcoder.inputFilename.
  simpl. destruct (extension f) eqn:E; [congruence | reflexivity].
Qed.

(** C8 (the code departs from the claim).  For the file name "clip." the
    last dot-separated part is empty: the display falls back to "mp4" and
    shows [input.mp4], while [transcode] falls back to "tmp" and hands
    [input.tmp] to the engine.  The two renderings differ. *)
Theorem display_differs_on_trailing_dot :
  Lib.generateFFmpegCommand dottedFile scenarioSettings =
    "ffmpeg -i input.mp4 -c:v libx264 -preset ultrafast -vf scale=640:360 -r 24 -b:v 800k -c:a copy output.mp4"
  /\
  "ffmpeg " ++ Js.join " " (Transcoder.execArgs (Transcoder.mkProps dottedFile scenarioSettings)) =
    "ffmpeg -i input.tmp -c:v libx264 -preset ultrafast -vf scale=640:360 -r 24 -b:v 800k -c:a copy output.mp4"
  /\
  Lib.generateFFmpegCommand dottedFile scenarioSettings <>
    "ffmpeg " ++ Js.join " " (Transcoder.execArgs (Transcoder.mkProps dottedFile scenarioSettings)).
Proof.
  split; [reflexivity |]. split; [reflexivity |].
  vm_compute. discriminate.
Qed.

(** ** Timeout estimator *)

Section Estimator.

Variables (w h fr : Z) (sf : Q) (st : OutputSettings).

Lemma complexity_positive (x : Q) : (0 < Qmax 1 x)%Q.
Proof.
  apply Qlt_le_trans with (y := 1%Q); [reflexivity | apply Q.le_max_l].
Qed.

Lemma segment_scaled_monotone (d1 d2 c : Q) :
  (0 < c)%Q -> (d1 <= d2)%Q -> (d1 * 0.005 * c <= d2 * 0.005 * c)%Q.
Proof.
  intros Hc Hd.
  apply Qmult_le_compat_r; [| apply Qlt_le_weak; exact Hc].
  apply Qmult_le_compat_r; [exact Hd | discriminate].
Qed.

(** The clamped estimator stays within its floor and ceiling. *)
Lemma clamped_within_bounds (a : VideoAnalysis) :
  (Clamped.floorMs <= Clamped.calcTimeoutPerHalfPercent a st)%Q /\
  (Clamped.calcTimeoutPerHalfPercent a st <= Clamped.ceilingMs)%Q.
Proof.
  unfold Clamped.calcTimeoutPerHalfPercent. split.
  - apply Q.le_max_l.
  - apply Q.max_lub; [discriminate | apply Q.le_min_r].
Qed.

(** Both estimators are monotone in the duration, all else fixed. *)
Lemma clamped_monotone (d1 d2 : Q) :
  (d1 <= d2)%Q ->
  (Clamped.calcTimeoutPerHalfPercent (mkAnalysis w h sf d1 fr) st <=
   Clamped.calcTimeoutPerHalfPercent (mkAnalysis w h sf d2 fr) st)%Q.
Proof.
  intros Hd.
  unfold Clamped.calcTimeoutPerHalfPercent, Clamped.expectedSeconds,
    Clamped.complexityFactor, Clamped.scaleRatio, Lib.segmentLength, Lib.inputPixels.
  simpl. set (c := Qmax 1 _).
  pose proof (segment_scaled_monotone d1 d2 c (complexity_positive _) Hd) as H.
  apply Q.max_le_compat_l. apply Q.min_le_compat_r. lra.
Qed.

Lemma shared_monotone (d1 d2 : Q) (mode : bool) (b1 b2 : Q) :
  (d1 <= d2)%Q ->
  Lib.calcTimeoutPerHalfPercent (mkAnalysis w h sf d1 fr) st mode = Some b1 ->
  Lib.calcTimeoutPerHalfPercent (mkAnalysis w h sf d2 fr) st mode = Some b2 ->
  (b1 <= b2)%Q.
Proof.
  intros Hd.
  unfold Lib.calcTimeoutPerHalfPercent, Lib.expectedSeconds, Lib.segmentLength.
  assert (Hc : Lib.complexity (mkAnalysis w h sf d1 fr) st
               = Lib.complexity (mkAnalysis w h sf d2 fr) st) by reflexivity.
  rewrite <- Hc.
  assert (Hpos : forall c, Lib.complexity (mkAnalysis w h sf d1 fr) st = Some c ->
                           (0 < c)%Q).
  { unfold Lib.complexity. intros c.
    destruct (Lib.scaleFactorOf _ st); intros E; inversion E; subst;
      [apply complexity_positive | reflexivity]. }
  destruct (Lib.complexity (mkAnalysis w h sf d1 fr) st) as [c |]; simpl;
    [| discriminate].
  intros E1 E2. inversion E1; inversion E2; subst.
  pose proof (segment_scaled_monotone d1 d2 c (Hpos c eq_refl) Hd) as H.
  destruct mode; lra.
Qed.

End Estimator.

(** C4 (the code departs from the claim).  The shared estimator of
    lib/videoAnalysis applies no floor and no ceiling: for the 120 s clip it
    returns 2400 ms (4800 ms in single-thread mode), below the 10000 ms floor
    of the clamped estimator, and for a ten-hour clip it returns 720000 ms,
    above the 120000 ms ceiling. *)
Theorem shared_estimator_escapes_bounds :
  (exists b, Lib.calcTimeoutPerHalfPercent scenarioAnalysis scenarioSettings false = Some b
             /\ (b < Clamped.floorMs)%Q) /\
  (exists b, Lib.calcTimeoutPerHalfPercent scenarioAnalysis scenarioSettings true = Some b
             /\ (b < Clamped.floorMs)%Q) /\
  (exists b, Lib.calcTimeoutPerHalfPercent (mkAnalysis 1920 1080 3 36000 30)
               scenarioSettings false = Some b
             /\ (Clamped.ceilingMs < b)%Q).
Proof.
  repeat split; eexists; (split; [vm_compute; reflexivity | reflexivity]).
Qed.

(** C5 (the code departs from the claim).  On the scenario the shared
    estimator does compute complexity 1 and 0.6 expected seconds, but it
    returns 0.6 * 4 * 1000 = 2400 ms (4800 ms in single-thread mode), not a
    floor; the clamped estimator, which has a floor, divides the other way
    round, finds complexity 9 and returns 43200 ms. *)
Theorem scenario_budget_is_not_the_floor :
  (exists c, Lib.complexity scenarioAnalysis scenarioSettings = Some c /\ (c == 1)%Q) /\
  (exists e, Lib.expectedSeconds scenarioAnalysis scenarioSettings = Some e
             /\ (e == 0.6)%Q) /\
  (exists b, Lib.calcTimeoutPerHalfPercent scenarioAnalysis scenarioSettings false = Some b
             /\ (b == 2400)%Q /\ ~ (b == Clamped.floorMs)%Q) /\
  (exists b, Lib.calcTimeoutPerHalfPercent scenarioAnalysis scenarioSettings true = Some b
             /\ (b == 4800)%Q /\ ~ (b == Clamped.floorMs)%Q) /\
  (Clamped.complexityFactor scenarioAnalysis scenarioSettings == 9)%Q /\
  (Clamped.calcTimeoutPerHalfPercent scenarioAnalysis scenarioSettings == 43200)%Q.
Proof.
  split; [eexists; split; [vm_compute; reflexivity | reflexivity] |].
  split; [eexists; split; [vm_compute; reflexivity | reflexivity] |].
  split; [eexists; split; [vm_compute; reflexivity | split; [reflexivity | discriminate]] |].
  split; [eexists; split; [vm_compute; reflexivity | split; [reflexivity | discriminate]] |].
  split; vm_compute; reflexivity.
Qed.

(** ** The watchdog *)

Section EffectDependencies.
Import Transcoder.


Lemma depsChanged_same (s s' : State) :
  logMessages s' = logMessages s -> isTranscoding s' = isTranscoding s ->
  depsChanged s s' = false.
Proof.
  intros Hl Ht. unfold depsChanged, effectDeps. simpl. rewrite Hl, Ht.
  rewrite Nat.eqb_refl, Bool.eqb_reflx. reflexivity.
Qed.

Lemma depsChanged_flag (s s' : State) :
  isTranscoding s' = negb (isTranscoding s) -> depsChanged s s' = true.
Proof.
  intros Ht. unfold depsChanged, effectDeps. simpl. rewrite Ht.
  destruct (isTranscoding s); simpl; rewrite andb_false_r; reflexivity.
Qed.

(** An effect that sees no dependency change leaves the state alone. *)
Lemma runEffect_same (v : Variant) (p : Props) (s s' : State) :
  logMessages s' = logMessages s -> isTranscoding s' = isTranscoding s ->
  runEffect v p s s' = s'.
Proof.
  intros Hl Ht. unfold runEffect.
  destruct v; [reflexivity | |]; rewrite depsChanged_same by assumption; reflexivity.
Qed.

End EffectDependencies.

Lemma run_app (v : Transcoder.Variant) (p : Transcoder.Props) (s : Transcoder.State)
    (evs1 evs2 : list Transcoder.Event) :
  Transcoder.run v p s (evs1 ++ evs2)
  = Transcoder.run v p (Transcoder.run v p s evs1) evs2.
Proof. unfold Transcoder.run. apply fold_left_app. Qed.

Lemma elapsed_app (evs1 evs2 : list Transcoder.Event) :
  elapsed (evs1 ++ evs2) = elapsed evs1 + elapsed evs2.
Proof.
  induction evs1 as [| ev evs1 IH]; simpl; [reflexivity |].
  destruct ev; rewrite IH; lia.
Qed.


(** What the guards of [transcode] let through. *)
Lemma accepts_iff (v : Transcoder.Variant) (p : Transcoder.Props) (s : Transcoder.State) :
  Transcoder.accepts v p s = true <->
  Transcoder.isLoaded s = true /\ Transcoder.isTranscoding s = false /\
  (exists a, Transcoder.videoAnalysis s = Some a) /\
  Transcoder.checksResolution v && Transcoder.aboveFullHD (Transcoder.settings p) = false.
Proof.
  unfold Transcoder.accepts.
  rewrite !andb_true_iff, !negb_true_iff.
  destruct (Transcoder.videoAnalysis s) as [a |].
  - split; [intros [[[H1 H2] _] H4]; eauto | tauto].
  - split; [intros [[_ C] _]; discriminate | intros (_ & _ & [a C] & _); discriminate].
Qed.

Section Watchdog.
Import Transcoder.

Variable v : Variant.
Variable p : Props.
Variable a : VideoAnalysis.

(** What [transcode] leaves behind when its guards let the job through:
    the display is reset and a run waits for [fetchFile]; no engine call has
    been issued yet. *)
Lemma handle_click_accepted (s : State) :
  isLoaded s = true -> isTranscoding s = false -> videoAnalysis s = Some a ->
  checksResolution v && aboveFullHD (settings p) = false ->
  handle v p s Click =
    {| isLoaded := isLoaded s; isTranscoding := true;
       progress := 0; outputUrl := None; error := None;
       videoAnalysis := videoAnalysis s; logMessages := [];
       timeoutRef := timeoutRef s; timer := timer s; calls := calls s;
       inFlight := S (inFlight s); fetching := S (fetching s);
       writing := writing s; timeouts := timeouts s |}.
Proof.
  intros Hl Ht Ha Hok. simpl. unfold transcode.
  rewrite Hl, Ht, Ha, Hok. reflexivity.
Qed.

(** The click: the effect-based components arm the watchdog for the full
    delay, the ref-based component leaves the timer as it is. *)
Lemma click_accepted (s : State) :
  isLoaded s = true -> isTranscoding s = false -> videoAnalysis s = Some a ->
  checksResolution v && aboveFullHD (settings p) = false ->
  running a (timeouts s)
    (match v with MultiRef => timer s | _ => Some (watchdogDelay v p a) end)
    (step v p s Click) /\
  waiting (S (inFlight s)) (S (fetching s)) (writing s) (step v p s Click) /\
  calls (step v p s Click) = calls s /\
  timeoutRef (step v p s Click) = timeoutRef s.
Proof.
  intros Hl Ht Ha Hok. unfold step, react.
  rewrite (handle_click_accepted s Hl Ht Ha Hok).
  unfold running, waiting, runEffect.
  destruct v; simpl.
  - repeat split; auto.
  - rewrite depsChanged_flag by (simpl; rewrite Ht; reflexivity). simpl.
    rewrite Ha. repeat split; auto.
  - rewrite depsChanged_flag by (simpl; rewrite Ht; reflexivity). simpl.
    rewrite Ha. repeat split; auto.
Qed.

(** A quiet event that comes before the watchdog is due leaves the job
    running, its runs where they wait, and the timer running down. *)
Lemma quiet_step (t0 : nat) (rem : Z) (s : State) (ev : Event) :
  running a t0 (Some rem) s -> (v = MultiRef -> timeoutRef s = true) ->
  quiet v ev = true -> (forall ms, ev = Elapse ms -> ms < rem) ->
  running a t0 (Some (rem - elapsed [ev])) (step v p s ev) /\
  (v = MultiRef -> timeoutRef (step v p s ev) = true) /\
  (v = MultiRef ->
   waiting (inFlight s) (fetching s) (writing s) (step v p s ev)).
Proof.
  intros (Ht & He & Ho & Hn & Ha & Htm) Href Hq Hlt.
  unfold running, waiting.
  destruct ev as [| ms | x | m | data | m | | | m | | m]; try discriminate Hq;
    unfold step, react, handle.
  - (* Elapse *)
    specialize (Hlt ms eq_refl). unfold elapse. rewrite Htm.
    replace (rem <=? ms) with false by (symmetry; apply Z.leb_gt; lia).
    rewrite runEffect_same by reflexivity. simpl.
    replace (rem - (ms + 0)) with (rem - ms) by lia. auto 10.
  - (* ProgressEv: no keep-alive here *)
    simpl in Hq. simpl elapsed. rewrite Z.sub_0_r.
    unfold onProgress.
    destruct v; simpl in Hq.
    + apply negb_true_iff in Hq. rewrite Hq. simpl. auto 10.
    + destruct (Qle_bool 0 x && Qle_bool x 1);
        rewrite runEffect_same by reflexivity; simpl; repeat split; auto; discriminate.
    + destruct (Qle_bool 0 x && Qle_bool x 1);
        rewrite runEffect_same by reflexivity; simpl; repeat split; auto; discriminate.
  - (* LogEv: no keep-alive in the ref-based component only *)
    simpl elapsed. rewrite Z.sub_0_r.
    destruct v; simpl in Hq; try discriminate Hq. simpl. auto 10.
  - (* FileFetched *)
    simpl elapsed. rewrite Z.sub_0_r.
    destruct v; simpl in Hq; try discriminate Hq;
      (destruct (pending AtFetch s);
       rewrite runEffect_same by reflexivity; simpl; repeat split; auto; discriminate).
  - (* FileWritten *)
    simpl elapsed. rewrite Z.sub_0_r.
    destruct v; simpl in Hq; try discriminate Hq;
      (destruct (pending AtWrite s);
       rewrite runEffect_same by reflexivity; simpl; repeat split; auto; discriminate).
Qed.






(** Before [exec] is called the ref-based component has no timer, and
    nothing that happens arms one. *)
Lemma uneventful_step (t0 : nat) (s : State) (ev : Event) :
  v = MultiRef -> running a t0 None s -> uneventful ev = true ->
  running a t0 None (step v p s ev) /\
  waiting (inFlight s) (fetching s) (writing s) (step v p s ev).
Proof.
  intros Hv (Ht & He & Ho & Hn & Ha & Htm) Hu. subst v.
  unfold running, waiting.
  destruct ev as [| ms | x | m | data | m | | | m | | m]; try discriminate Hu;
    unfold step, react, handle, runEffect.
  - unfold elapse. rewrite Htm. auto 10.
  - unfold onProgress. destruct (Qle_bool 0 x && Qle_bool x 1); simpl; auto 10.
    rewrite Htm. destruct (timeoutRef s); auto 10.
  - simpl. auto 10.
Qed.

Lemma uneventful_run (t0 : nat) (evs : list Event) :
  v = MultiRef -> forallb uneventful evs = true ->
  forall s, running a t0 None s ->
    running a t0 None (run v p s evs) /\
    waiting (inFlight s) (fetching s) (writing s) (run v p s evs).
Proof.
  intros Hv. induction evs as [| ev evs IH]; intros Hu s Hs.
  - simpl. unfold waiting. auto.
  - simpl in Hu. apply andb_true_iff in Hu. destruct Hu as [Hu Hrest].
    destruct (uneventful_step t0 s ev Hv Hs Hu) as (Hs' & Hw').
    simpl. destruct (IH Hrest _ Hs') as (Hs'' & Hw'').
    split; [exact Hs'' |].
    unfold waiting in *. destruct Hw' as (A1 & A2 & A3).
    destruct Hw'' as (B1 & B2 & B3). repeat split; congruence.
Qed.

(** The input of a waiting run is fetched: [writeFile] is called. *)
Lemma fetched_step (t0 : nat) (tm : option Z) (n f w : nat) (s : State) :
  running a t0 tm s -> waiting n (S f) w s ->
  running a t0 tm (step v p s FileFetched) /\
  waiting n f (S w) (step v p s FileFetched) /\
  timeoutRef (step v p s FileFetched) = timeoutRef s /\
  calls (step v p s FileFetched) = (calls s ++ [WriteFile (inputFilename p)])%list.
Proof.
  intros (Ht & He & Ho & Hn & Ha & Htm) (Hi & Hf & Hw).
  unfold step, react, handle, pending. rewrite Hf.
  rewrite runEffect_same by reflexivity.
  unfold running, waiting. simpl. rewrite Hf. auto 10.
Qed.

(** The input of a waiting run is written: [exec] is called, and the
    ref-based component arms its watchdog for the full delay. *)
Lemma written_step (t0 : nat) (tm : option Z) (n f w : nat) (s : State) :
  running a t0 tm s -> waiting n f (S w) s ->
  running a t0
    (match v with MultiRef => Some (watchdogDelay v p a) | _ => tm end)
    (step v p s FileWritten) /\
  waiting n f w (step v p s FileWritten) /\
  (v = MultiRef -> timeoutRef (step v p s FileWritten) = true) /\
  calls (step v p s FileWritten) = (calls s ++ [Exec (execArgs p)])%list.
Proof.
  intros (Ht & He & Ho & Hn & Ha & Htm) (Hi & Hf & Hw).
  unfold step, react, handle, pending. rewrite Hw.
  rewrite runEffect_same by reflexivity.
  unfold running, waiting. simpl. rewrite Hw, Ha.
  destruct v; repeat split; auto; discriminate.
Qed.


End Watchdog.




(** ** Validation of the target resolution *)

(** The multi-threaded components reject a resolution above 1920x1080 before
    any engine call. *)
Lemma oversize_rejected_where_checked (v : Transcoder.Variant) (p : Transcoder.Props)
    (s : Transcoder.State) (a : VideoAnalysis) :
  Transcoder.checksResolution v = true ->
  Transcoder.isLoaded s = true ->
  Transcoder.isTranscoding s = false ->
  Transcoder.videoAnalysis s = Some a ->
  Transcoder.aboveFullHD (Transcoder.settings p) = true ->
  Transcoder.error (Transcoder.step v p s Transcoder.Start)
    = Some Transcoder.maxResolutionMessage /\
  Transcoder.calls (Transcoder.step v p s Transcoder.Start) = Transcoder.calls s /\
  Transcoder.inFlight (Transcoder.step v p s Transcoder.Start) = Transcoder.inFlight s /\
  Transcoder.isTranscoding (Transcoder.step v p s Transcoder.Start) = false.
Proof.
  intros Hv Hl Ht Ha Hbig.
  unfold Transcoder.step, Transcoder.accepts.
  rewrite Hl, Ht, Ha, Hv, Hbig. simpl.
  unfold Transcoder.react, Transcoder.handle, Transcoder.transcode.
  rewrite Hl, Ht, Ha, Hv, Hbig. simpl.
  rewrite runEffect_same by (simpl; congruence). simpl. auto.
Qed.

(** C3 (the code departs from the claim).  The single-threaded component has
    no resolution check: with the settings "2560x1080", which the menu offers
    for a 2560x1080 input, a start sets no error and issues the engine's
    [writeFile] and [exec]. *)
Theorem single_threaded_start_skips_resolution_check :
  Transcoder.aboveFullHD wideSettings = true /\
  Transcoder.error
    (Transcoder.step Transcoder.SingleEffect wideProps (Transcoder.ready wideAnalysis)
       Transcoder.Start) = None /\
  Transcoder.isTranscoding
    (Transcoder.step Transcoder.SingleEffect wideProps (Transcoder.ready wideAnalysis)
       Transcoder.Start) = true /\
  Transcoder.calls
    (Transcoder.step Transcoder.SingleEffect wideProps (Transcoder.ready wideAnalysis)
       Transcoder.Start)
    = [Transcoder.WriteFile "input.mov";
       Transcoder.Exec
         ["-i"; "input.mov"; "-c:v"; "libx264"; "-preset"; "ultrafast";
          "-vf"; "scale=2560:1080"; "-r"; "20"; "-b:v"; "4500k";
          "-c:a"; "copy"; "output.mp4"]].
Proof. repeat split; by_evaluation. Qed.

(** ** Engine outcomes after a timeout *)

(** Whatever was reported before, the resolution of a pending [exec]
    publishes its output. *)
Lemma resolution_always_published (v : Transcoder.Variant) (p : Transcoder.Props)
    (s : Transcoder.State) (data : string) :
  Transcoder.pending Transcoder.AtExec s <> 0%nat ->
  Transcoder.outputUrl (Transcoder.step v p s (Transcoder.ExecResolved data)) = Some data.
Proof.
  intros Hf. unfold Transcoder.step, Transcoder.react, Transcoder.handle.
  destruct (Transcoder.pending Transcoder.AtExec s); [congruence |].
  unfold Transcoder.runEffect.
  destruct v; try reflexivity;
    match goal with |- context [Transcoder.depsChanged ?x ?y] =>
      destruct (Transcoder.depsChanged x y) end; reflexivity.
Qed.

(** C2 (the code departs from the claim).  In each component, a job that is
    silent for 600 s is reported as timed out with nothing published; when
    the abandoned [exec] resolves later, [readFile] is called and the output
    is published all the same, and when it rejects later, the failure
    message replaces the timeout message. *)
Theorem late_engine_result_surfaces_after_timeout (v : Transcoder.Variant) :
  Transcoder.error
    (Transcoder.run v scenarioProps (Transcoder.ready scenarioAnalysis) timedOutJob)
    = Some (Transcoder.timeoutMessage v) /\
  Transcoder.isTranscoding
    (Transcoder.run v scenarioProps (Transcoder.ready scenarioAnalysis) timedOutJob)
    = false /\
  Transcoder.outputUrl
    (Transcoder.run v scenarioProps (Transcoder.ready scenarioAnalysis) timedOutJob)
    = None /\
  Transcoder.outputUrl
    (Transcoder.run v scenarioProps (Transcoder.ready scenarioAnalysis)
       (timedOutJob ++ [Transcoder.ExecResolved "bytes"])) = Some "bytes" /\
  In (Transcoder.ReadFile "output.mp4")
    (Transcoder.calls
       (Transcoder.run v scenarioProps (Transcoder.ready scenarioAnalysis)
          (timedOutJob ++ [Transcoder.ExecResolved "bytes"]))) /\
  Transcoder.error
    (Transcoder.run v scenarioProps (Transcoder.ready scenarioAnalysis)
       (timedOutJob ++ [Transcoder.ExecRejected "abort"]))
    = Some (Transcoder.failureMessage v).
Proof.
  destruct v;
    (split; [by_evaluation |]); (split; [by_evaluation |]);
    (split; [by_evaluation |]); (split; [by_evaluation |]);
    (split; by_evaluation).
Qed.

(** ** One invocation at a time *)

(** What holds after every single event holds after [Start] as well. *)
Lemma step_from_react (P : Transcoder.State -> Prop) (v : Transcoder.Variant)
    (p : Transcoder.Props) :
  (forall s ev, P s -> P (Transcoder.react v p s ev)) ->
  forall s ev, P s -> P (Transcoder.step v p s ev).
Proof.
  intros H s ev Hs. destruct ev; try (apply H; exact Hs).
  unfold Transcoder.step. destruct (Transcoder.accepts v p s).
  - apply H. apply H. apply H. exact Hs.
  - apply H. exact Hs.
Qed.

Lemma run_invariant (P : Transcoder.State -> Prop) (v : Transcoder.Variant)
    (p : Transcoder.Props) :
  (forall s ev, P s -> P (Transcoder.react v p s ev)) ->
  forall evs s, P s -> P (Transcoder.run v p s evs).
Proof.
  intros Hstep. induction evs as [| ev evs IH]; intros s Hs; simpl.
  - exact Hs.
  - apply IH. apply step_from_react; assumption.
Qed.

Section Flight.
Import Transcoder.

Variable v : Variant.
Variable p : Props.

Lemma runEffect_counters (before after : State) :
  inFlight (runEffect v p before after) = inFlight after /\
  fetching (runEffect v p before after) = fetching after /\
  writing (runEffect v p before after) = writing after /\
  timeouts (runEffect v p before after) = timeouts after /\
  isTranscoding (runEffect v p before after) = isTranscoding after.
Proof.
  unfold runEffect.
  destruct v; try (destruct (depsChanged before after)); simpl; auto.
Qed.

(** Each handler keeps the bound and never undoes a watchdog run. *)
Lemma handle_flightBound (s : State) (ev : Event) :
  flightBound s ->
  flightBound (handle v p s ev) /\ (timeouts s <= timeouts (handle v p s ev))%nat.
Proof.
  unfold flightBound. intros H.
  assert (Hstart : (inFlight (transcode v p s)
                    <= timeouts (transcode v p s)
                       + (if isTranscoding (transcode v p s) then 1 else 0))%nat
                   /\ (timeouts s <= timeouts (transcode v p s))%nat).
  { unfold transcode.
    destruct (isLoaded s); simpl; [| split; [exact H | lia]].
    destruct (isTranscoding s) eqn:Ht; simpl; [rewrite Ht; split; [exact H | lia] |].
    destruct (videoAnalysis s); [| rewrite Ht; split; lia].
    destruct (checksResolution v && aboveFullHD (settings p)); simpl; split; lia. }
  assert (Hcatch : forall w m,
             (inFlight (onRejected v w m s)
              <= timeouts (onRejected v w m s)
                 + (if isTranscoding (onRejected v w m s) then 1 else 0))%nat
             /\ (timeouts s <= timeouts (onRejected v w m s))%nat).
  { intros w m. simpl. destruct (isTranscoding s); split; lia. }
  destruct ev as [| ms | x | m | data | m | | | m | | m]; simpl.
  - exact Hstart.
  - (* Elapse *)
    unfold elapse.
    destruct (timer s) as [remaining |]; [| split; [exact H | lia]].
    destruct (remaining <=? ms); simpl; split; try lia.
    destruct (isTranscoding s); lia.
  - (* ProgressEv *)
    unfold onProgress.
    destruct (Qle_bool 0 x && Qle_bool x 1); simpl; split; (exact H || lia).
  - (* LogEv *)
    split; [exact H | lia].
  - (* ExecResolved *)
    destruct (inFlight s - fetching s - writing s)%nat; simpl.
    + split; [exact H | lia].
    + destruct (isTranscoding s); split; lia.
  - (* ExecRejected *)
    destruct (inFlight s - fetching s - writing s)%nat;
      [split; [exact H | lia] | apply Hcatch].
  - exact Hstart.
  - (* FileFetched *)
    destruct (fetching s); simpl; split; (exact H || lia).
  - (* FetchRejected *)
    destruct (fetching s); [split; [exact H | lia] | apply Hcatch].
  - (* FileWritten *)
    destruct (writing s); simpl; split; (exact H || lia).
  - (* WriteRejected *)
    destruct (writing s); [split; [exact H | lia] | apply Hcatch].
Qed.

Lemma react_flightBound (t : nat) (s : State) (ev : Event) :
  flightBound s /\ (t <= timeouts s)%nat ->
  flightBound (react v p s ev) /\ (t <= timeouts (react v p s ev))%nat.
Proof.
  intros [H Ht]. destruct (handle_flightBound s ev H) as [Hb Hm].
  unfold react, flightBound.
  destruct (runEffect_counters s (handle v p s ev)) as (-> & _ & _ & -> & ->).
  split; [exact Hb | lia].
Qed.

Lemma run_flightBound (evs : list Event) :
  forall s, flightBound s ->
  flightBound (run v p s evs) /\ (timeouts s <= timeouts (run v p s evs))%nat.
Proof.
  intros s H.
  apply (run_invariant
           (fun x => flightBound x /\ (timeouts s <= timeouts x)%nat) v p
           (react_flightBound (timeouts s)) evs s).
  split; [exact H | lia].
Qed.

(** The guard of [transcode]. *)
Lemma start_while_transcoding (s : State) :
  isTranscoding s = true -> step v p s Start = s.
Proof.
  intros Ht. unfold step, accepts. rewrite Ht, andb_false_r. simpl.
  unfold react, handle, transcode.
  rewrite Ht, orb_true_r. apply runEffect_same; reflexivity.
Qed.

End Flight.

(** The guard of [runDebugTest]. *)
Lemma run_while_testing (f : option File) (env : Debug.Env) (s : Debug.State) :
  Debug.isTesting s = true -> Debug.runDebugTest f env s = s.
Proof.
  intros Ht. unfold Debug.runDebugTest.
  destruct f; [| reflexivity]. rewrite Ht, orb_true_r. reflexivity.
Qed.

(** C7 (amended).  A start issued while [isTranscoding] (resp. [isTesting])
    is true returns without touching the state, so without invoking the
    engine; hence, as long as no watchdog has fired, at most one engine
    invocation is in flight. *)
Theorem busy_start_rejected_and_single_flight_until_timeout :
  (forall v p s,
      Transcoder.isTranscoding s = true ->
      Transcoder.step v p s Transcoder.Start = s) /\
  (forall f env s,
      Debug.isTesting s = true -> Debug.runDebugTest f env s = s) /\
  (forall v p evs s,
      Transcoder.inFlight s = 0%nat -> Transcoder.timeouts s = 0%nat ->
      Transcoder.timeouts (Transcoder.run v p s evs) = 0%nat ->
      (Transcoder.inFlight (Transcoder.run v p s evs) <= 1)%nat).
Proof.
  split; [exact start_while_transcoding |].
  split; [exact run_while_testing |].
  intros v p evs s Hf Ht Hend.
  assert (H0 : flightBound s) by (unfold flightBound; lia).
  destruct (run_flightBound v p evs s H0) as [Hb _].
  unfold flightBound in Hb. rewrite Hend in Hb.
  destruct (Transcoder.isTranscoding (Transcoder.run v p s evs)); lia.
Qed.

Lemma busy_start_rejected_and_single_flight_until_timeout_witness :
  Transcoder.step Transcoder.MultiRef scenarioProps
    (Transcoder.step Transcoder.MultiRef scenarioProps (Transcoder.ready scenarioAnalysis)
       Transcoder.Start)
    Transcoder.Start
  = Transcoder.step Transcoder.MultiRef scenarioProps (Transcoder.ready scenarioAnalysis)
      Transcoder.Start
  /\
  (Transcoder.inFlight
     (Transcoder.run Transcoder.MultiRef scenarioProps (Transcoder.ready scenarioAnalysis)
        [Transcoder.Start; Transcoder.Elapse 1000; Transcoder.Start;
         Transcoder.ProgressEv 0.5; Transcoder.Start]) <= 1)%nat.
Proof.
  split.
  - apply (proj1 busy_start_rejected_and_single_flight_until_timeout). reflexivity.
  - apply (proj2 (proj2 busy_start_rejected_and_single_flight_until_timeout));
      reflexivity.
Defined.

(** C7 as stated fails.  Once the watchdog has fired, [isTranscoding] is
    false while the abandoned [exec] is still pending; the next start passes
    the guard and invokes the engine again: two invocations are in flight. *)
Lemma second_invocation_after_timeout :
  Transcoder.isTranscoding
    (Transcoder.run Transcoder.MultiRef scenarioProps (Transcoder.ready scenarioAnalysis)
       timedOutJob) = false /\
  Transcoder.inFlight
    (Transcoder.run Transcoder.MultiRef scenarioProps (Transcoder.ready scenarioAnalysis)
       timedOutJob) = 1%nat /\
  Transcoder.inFlight
    (Transcoder.run Transcoder.MultiRef scenarioProps (Transcoder.ready scenarioAnalysis)
       (timedOutJob ++ [Transcoder.Start])) = 2%nat /\
  ~ (Transcoder.inFlight
       (Transcoder.run Transcoder.MultiRef scenarioProps (Transcoder.ready scenarioAnalysis)
          (timedOutJob ++ [Transcoder.Start])) <= 1)%nat.
Proof. repeat split; by_evaluation. Qed.

(** ** The diagnostic batch *)

Section BatchOutcomes.
Import Debug.

Lemma updateWhere_withLogs_outline (target : string) (l : list string)
    (rs : list DebugResult) :
  outline (updateWhere target (withLogs l) rs) = outline rs.
Proof.
  unfold outline, updateWhere. rewrite map_map. apply map_ext.
  intros r. destruct (String.eqb (resolution r) target); reflexivity.
Qed.

Lemma notify_outline (m : string) (ls : list Listener) :
  forall rs, outline (snd (notify m ls rs)) = outline rs.
Proof.
  induction ls as [| l ls IH]; intros rs; simpl; [reflexivity |].
  specialize (IH (updateWhere (res l) (withLogs (currentLogs l ++ [m])) rs)).
  destruct (notify m ls _) as [ls' rs']. simpl in *.
  rewrite IH. apply updateWhere_withLogs_outline.
Qed.

(** A log event changes no resolution and no status. *)
Lemma onLog_outline (m : string) (s : State) :
  outline (debugResults (onLog m s)) = outline (debugResults s).
Proof.
  unfold onLog.
  pose proof (notify_outline m (listeners s) (debugResults s)) as H.
  destruct (notify m (listeners s) (debugResults s)) as [ls rs].
  exact H.
Qed.

Lemma logs_outline (ms : list string) :
  forall s, outline (debugResults (fold_left (fun st m => onLog m st) ms s))
            = outline (debugResults s).
Proof.
  induction ms as [| m ms IH]; intros s; simpl; [reflexivity |].
  rewrite IH. apply onLog_outline.
Qed.

Lemma settle_outline (r : string) (t : Trial) (mine : list string)
    (rs : list DebugResult) :
  outline (settle r t mine rs) =
  map (fun x => if String.eqb (fst x) r then (fst x, statusOf (settled t)) else x)
      (outline rs).
Proof.
  unfold settle, statusOf, outline, updateWhere.
  destruct (errorMessage (settled t)); rewrite !map_map; apply map_ext;
    intros x; simpl; destruct (String.eqb (resolution x) r); reflexivity.
Qed.

(** A trial writes the status of its own resolution and of no other. *)
Lemma runTrial_outline (inputName r : string) (t : Trial) (s : State) :
  outline (debugResults (runTrial inputName s r t)) =
  map (fun x => if String.eqb (fst x) r then (fst x, statusOf (settled t)) else x)
      (outline (debugResults s)).
Proof.
  unfold runTrial. simpl. rewrite settle_outline, logs_outline. reflexivity.
Qed.

Lemma notify_listeners (m : string) (ls : list Listener) :
  forall rs, map res (fst (notify m ls rs)) = map res ls.
Proof.
  induction ls as [| l ls IH]; intros rs; simpl; [reflexivity |].
  specialize (IH (updateWhere (res l) (withLogs (currentLogs l ++ [m])) rs)).
  destruct (notify m ls _) as [ls' rs']. simpl in *. rewrite IH. reflexivity.
Qed.

Lemma logs_listeners (ms : list string) :
  forall s, map res (listeners (fold_left (fun st m => onLog m st) ms s))
            = map res (listeners s).
Proof.
  induction ms as [| m ms IH]; intros s; simpl; [reflexivity |].
  rewrite IH. unfold onLog.
  pose proof (notify_listeners m (listeners s) (debugResults s)) as H.
  destruct (notify m (listeners s) (debugResults s)) as [ls rs]. exact H.
Qed.

(** A trial adds its listener and removes none. *)
Lemma runTrial_listeners (inputName r : string) (t : Trial) (s : State) :
  map res (listeners (runTrial inputName s r t)) = (map res (listeners s) ++ [r])%list.
Proof.
  unfold runTrial. simpl. rewrite logs_listeners. simpl.
  rewrite map_app. reflexivity.
Qed.

(** After a batch whose upload went through, the engine holds every listener
    it held before, and one more for each trial. *)
Lemma listeners_never_removed (f : File) (env : Env) (s : State) :
  isLoaded s = true -> isTesting s = false -> upload env = Uploaded ->
  map res (listeners (runDebugTest (Some f) env s))
  = (map res (listeners s) ++ TEST_RESOLUTIONS)%list.
Proof.
  intros Hl Ht Hu. unfold runDebugTest. rewrite Hl, Ht, Hu.
  cbn -[runTrial]. rewrite !runTrial_listeners. cbn.
  rewrite <- !app_assoc. reflexivity.
Qed.

(** The batch reports the trials in order, and the status of each trial is
    decided by how its own race settled: a trial that fails or times out
    changes no other trial's status. *)
Lemma trial_outcomes_independent (f : File) (env : Env) (s : State) :
  isLoaded s = true -> isTesting s = false -> upload env = Uploaded ->
  outline (debugResults (runDebugTest (Some f) env s)) =
  [ ("1920x1080", statusOf (settled (trial env 0%nat)));
    ("1280x720", statusOf (settled (trial env 1%nat)));
    ("854x480", statusOf (settled (trial env 2%nat)));
    ("640x360", statusOf (settled (trial env 3%nat))) ].
Proof.
  intros Hl Ht Hu. unfold runDebugTest. rewrite Hl, Ht, Hu.
  cbn -[runTrial]. rewrite !runTrial_outline. reflexivity.
Qed.

(** A batch whose upload fails stops before its loop. *)
Lemma upload_failed (f : File) (env : Env) (s : State) :
  isLoaded s = true -> isTesting s = false -> upload env <> Uploaded ->
  isTesting (runDebugTest (Some f) env s) = true /\
  debugResults (runDebugTest (Some f) env s)
    = map (fun r => mkResult r Pending [] None) TEST_RESOLUTIONS /\
  listeners (runDebugTest (Some f) env s) = listeners s /\
  calls (runDebugTest (Some f) env s)
    = (calls s ++ match upload env with
                  | WriteFailed => [Transcoder.WriteFile (inputFilename f)]
                  | _ => []
                  end)%list.
Proof.
  intros Hl Ht Hu. unfold runDebugTest. rewrite Hl, Ht.
  destruct (upload env); [congruence | |]; simpl;
    rewrite ?app_nil_r; auto.
Qed.

End BatchOutcomes.

(** C6 (the code departs from the claim).  Every trial registers a log
    listener and none is ever removed, so the listener of an earlier trial
    still runs during the later ones.  In a batch where each trial emits one
    line and the second trial throws, the first trial's log list ends with
    all four lines, and the failed trial's list loses its "ERROR: boom" line
    to the lines of the trials after it. *)
Theorem stale_listeners_leak_logs_across_trials :
  map (fun r => (Debug.resolution r, Debug.status r, Debug.logs r))
    (Debug.debugResults (Debug.runDebugTest (Some batchFile) batchEnv Debug.loaded))
  = [ ("1920x1080", Debug.Success, ["line A"; "line B"; "line C"; "line D"]);
      ("1280x720", Debug.Failed, ["line B"; "line C"; "line D"]);
      ("854x480", Debug.Success, ["line C"; "line D"]);
      ("640x360", Debug.Success, ["line D"]) ].
Proof. vm_compute. reflexivity. Qed.

(** * Further properties *)

(** ** Decimal numerals: printing and parsing agree *)

Section Numerals.

Lemma allDigits_string_of_uint (d : Decimal.uint) :
  forall acc, Js.allDigits acc (NilEmpty.string_of_uint d) = Some (uintValue acc d).
Proof.
  induction d; intros acc; simpl; try reflexivity;
    rewrite IHd; f_equal; f_equal; lia.
Qed.

Lemma leadingDigits_string_of_uint (d : Decimal.uint) :
  forall acc, Js.leadingDigits (Some acc) (NilEmpty.string_of_uint d)
              = Some (uintValue acc d).
Proof.
  induction d; intros acc; simpl; try reflexivity;
    rewrite IHd; f_equal; f_equal; lia.
Qed.

Lemma uintValue_acc (d : Decimal.uint) :
  forall acc, uintValue (Z.pos acc) d = Z.pos (Pos.of_uint_acc d acc).
Proof.
  induction d; intros acc; cbn [uintValue Pos.of_uint_acc]; try reflexivity;
    rewrite <- IHd; f_equal; rewrite ?Pos2Z.inj_add, Pos2Z.inj_mul; lia.
Qed.

Lemma uintValue_of_uint (d : Decimal.uint) :
  uintValue 0 d = Z.of_N (Pos.of_uint d).
Proof.
  induction d; cbn [uintValue Pos.of_uint]; try reflexivity; try exact IHd;
    apply (uintValue_acc d).
Qed.

Lemma uintValue_to_uint (q : positive) : uintValue 0 (Pos.to_uint q) = Z.pos q.
Proof.
  rewrite uintValue_of_uint, DecimalPos.Unsigned.of_to. reflexivity.
Qed.


(** A printed numeral starts with a digit, so it is neither empty nor blank
    nor signed. *)
Lemma string_of_uint_head (d : Decimal.uint) :
  d <> Decimal.Nil ->
  exists c rest, NilEmpty.string_of_uint d = String c rest /\
                 Js.digit c <> None /\ Js.isSpace c = false /\
                 c <> "-"%char /\ c <> "+"%char.
Proof.
  intros Hd. destruct d; [congruence | ..]; simpl;
    eexists; eexists; (split; [reflexivity |]);
    repeat split; discriminate.
Qed.

Lemma Number_of_digits (d : Decimal.uint) :
  d <> Decimal.Nil ->
  Js.Number (NilEmpty.string_of_uint d) = Some (uintValue 0 d).
Proof.
  intros Hd. rewrite <- allDigits_string_of_uint.
  destruct d; [congruence | ..]; reflexivity.
Qed.

Lemma parseInt_of_digits (d : Decimal.uint) :
  d <> Decimal.Nil ->
  Js.parseInt (NilEmpty.string_of_uint d) = Some (uintValue 0 d).
Proof.
  intros Hd. destruct d; [congruence | ..]; unfold Js.parseInt; simpl;
    rewrite leadingDigits_string_of_uint; f_equal.
Qed.

(** [Number(String(n))] is [n]. *)
Lemma Number_ofZ (n : Z) : Js.Number (Js.ofZ n) = Some n.
Proof.
  unfold Js.ofZ. destruct n as [| q | q]; cbn [Z.to_int NilEmpty.string_of_int].
  - reflexivity.
  - rewrite Number_of_digits by apply Unsigned.to_uint_nonnil.
    rewrite uintValue_to_uint. reflexivity.
  - pose proof (Unsigned.to_uint_nonnil q) as Hq.
    destruct (string_of_uint_head _ Hq) as (c & rest & E & _).
    pose proof (allDigits_string_of_uint (Pos.to_uint q) 0) as H.
    rewrite E in *.
    change (Js.Number (String "-" (String c rest)))
      with (option_map Z.opp (Js.allDigits 0 (String c rest))).
    rewrite H, uintValue_to_uint. reflexivity.
Qed.

Lemma leadingDigits_of_digits (d : Decimal.uint) :
  d <> Decimal.Nil ->
  Js.leadingDigits None (NilEmpty.string_of_uint d) = Some (uintValue 0 d).
Proof.
  intros Hd. destruct d; [congruence | ..]; simpl;
    rewrite leadingDigits_string_of_uint; f_equal.
Qed.

(** [parseInt(String(n), 10)] is [n]. *)
Lemma parseInt_ofZ (n : Z) : Js.parseInt (Js.ofZ n) = Some n.
Proof.
  unfold Js.ofZ. destruct n as [| q | q]; cbn [Z.to_int NilEmpty.string_of_int].
  - reflexivity.
  - rewrite parseInt_of_digits by apply Unsigned.to_uint_nonnil.
    rewrite uintValue_to_uint. reflexivity.
  - change (Js.parseInt (String "-" (NilEmpty.string_of_uint (Pos.to_uint q))))
      with (option_map Z.opp
              (Js.leadingDigits None (NilEmpty.string_of_uint (Pos.to_uint q)))).
    rewrite leadingDigits_of_digits by apply Unsigned.to_uint_nonnil.
    rewrite uintValue_to_uint. reflexivity.
Qed.

Lemma absent_string_of_uint (d : Decimal.uint) :
  absent "x" (NilEmpty.string_of_uint d) = true.
Proof. induction d; simpl; auto. Qed.

(** A printed integer contains no "x". *)
Lemma absent_ofZ (n : Z) : absent "x" (Js.ofZ n) = true.
Proof.
  unfold Js.ofZ. destruct n; simpl; try reflexivity; apply absent_string_of_uint.
Qed.

End Numerals.

(** ** Splitting *)

Section Splitting.

Variable sep : ascii.

Lemma split_absent (s : string) : absent sep s = true -> Js.split sep s = [s].
Proof.
  induction s as [| c s IH]; simpl; [reflexivity |].
  intros H. apply andb_true_iff in H. destruct H as [Hc Hs].
  apply negb_true_iff in Hc. rewrite Hc, (IH Hs). reflexivity.
Qed.

Lemma split_at_first (a b : string) :
  absent sep a = true ->
  Js.split sep (a ++ String sep b) = a :: Js.split sep b.
Proof.
  induction a as [| c a IH]; simpl.
  - intros _. rewrite Ascii.eqb_refl. reflexivity.
  - intros H. apply andb_true_iff in H. destruct H as [Hc Ha].
    apply negb_true_iff in Hc. rewrite Hc, (IH Ha). reflexivity.
Qed.

(** The last part of a split holds no separator. *)
Lemma split_last_absent (s : string) :
  absent sep (Js.pop (Js.split sep s)) = true.
Proof.
  unfold Js.pop. induction s as [| c s IH]; simpl; [reflexivity |].
  destruct (Ascii.eqb c sep) eqn:E.
  - destruct (Js.split sep s) eqn:Es; [simpl in *; reflexivity | exact IH].
  - destruct (Js.split sep s) as [| seg segs] eqn:Es; simpl.
    + rewrite E. reflexivity.
    + destruct segs; simpl in *; [rewrite E; exact IH | exact IH].
Qed.

End Splitting.

(** ** The settings menu *)

Section MenuFacts.

Variable aspectRatio : Q.
Variables inW inH : Z.

Lemma fold_pushOption_filter (hs : list Z) :
  forall acc,
    fold_left (Menu.pushOption aspectRatio inW inH) hs acc
    = (acc ++ map (optionFor aspectRatio) (filter (fits aspectRatio inW inH) hs))%list.
Proof.
  induction hs as [| h hs IH]; intros acc; simpl.
  - rewrite app_nil_r. reflexivity.
  - rewrite IH. unfold Menu.pushOption, fits.
    destruct ((h <=? inH) && (Menu.evenWidth h aspectRatio <=? inW)); simpl.
    + rewrite <- app_assoc. reflexivity.
    + reflexivity.
Qed.

(** The generator is a filter over the standard heights. *)
Lemma generate_as_filter :
  Menu.generateResolutionOptions aspectRatio inW inH
  = map (optionFor aspectRatio)
        (filter (fits aspectRatio inW inH) Menu.standardHeights).
Proof.
  unfold Menu.generateResolutionOptions. rewrite fold_pushOption_filter. reflexivity.
Qed.

Lemma option_of_height (o : Menu.ResolutionOption) :
  In o (Menu.generateResolutionOptions aspectRatio inW inH) ->
  o = optionFor aspectRatio (Menu.height o) /\
  In (Menu.height o) Menu.standardHeights /\
  fits aspectRatio inW inH (Menu.height o) = true.
Proof.
  rewrite generate_as_filter, in_map_iff.
  intros (h & <- & Hin). apply filter_In in Hin. simpl. tauto.
Qed.

End MenuFacts.

(** The resolution string built from a width and a height reads back as that
    width and that height, with [Number] and with [parseInt]. *)
Lemma resolution_reads_back (w h fr br : Z) (mono : bool) :
  resolutionNumbers (mkSettings (Js.ofZ w ++ "x" ++ Js.ofZ h) fr br mono)
    = (Some w, Some h) /\
  resolutionInts (mkSettings (Js.ofZ w ++ "x" ++ Js.ofZ h) fr br mono)
    = (Some w, Some h).
Proof.
  unfold resolutionNumbers, resolutionInts. simpl resolution.
  change (Js.ofZ w ++ "x" ++ Js.ofZ h) with (Js.ofZ w ++ String "x" (Js.ofZ h)).
  rewrite split_at_first by apply absent_ofZ.
  rewrite split_absent by apply absent_ofZ.
  simpl. rewrite !Number_ofZ, !parseInt_ofZ. split; reflexivity.
Qed.

(** X1.  The label of every option the menu offers reads back, in the
    estimator ([Number]) and in the transcoder's check ([parseInt]), as the
    option's own width and height. *)
Theorem option_label_reads_back (aspectRatio : Q) (inW inH fr br : Z) (mono : bool)
    (o : Menu.ResolutionOption) :
  In o (Menu.generateResolutionOptions aspectRatio inW inH) ->
  resolutionNumbers (mkSettings (Menu.label o) fr br mono)
    = (Some (Menu.width o), Some (Menu.height o)) /\
  resolutionInts (mkSettings (Menu.label o) fr br mono)
    = (Some (Menu.width o), Some (Menu.height o)).
Proof.
  intros Hin. destruct (option_of_height _ _ _ _ Hin) as (Ho & _ & _).
  rewrite Ho. simpl. apply resolution_reads_back.
Qed.

Lemma option_label_reads_back_witness :
  resolutionNumbers (mkSettings "640x360" 24 800 false) = (Some 640, Some 360) /\
  resolutionInts (mkSettings "640x360" 24 800 false) = (Some 640, Some 360).
Proof.
  apply (option_label_reads_back (16 # 9) 1920 1080 24 800 false
           (Menu.mkOption "640x360" 640 360 800)).
  vm_compute. tauto.
Defined.

Lemma heights_of_options (aspectRatio : Q) (inW inH : Z) :
  map Menu.height (Menu.generateResolutionOptions aspectRatio inW inH)
  = filter (fits aspectRatio inW inH) Menu.standardHeights.
Proof.
  rewrite generate_as_filter, map_map. simpl. apply map_id.
Qed.

(** X2.  The options come in strictly increasing height, each height is one
    of 240, 360, 480, 720, 1080, and there are at most five of them. *)
Theorem options_sorted_by_height (aspectRatio : Q) (inW inH : Z) :
  StronglySorted Z.lt
    (map Menu.height (Menu.generateResolutionOptions aspectRatio inW inH)) /\
  incl (map Menu.height (Menu.generateResolutionOptions aspectRatio inW inH))
       Menu.standardHeights /\
  (List.length (Menu.generateResolutionOptions aspectRatio inW inH) <= 5)%nat.
Proof.
  rewrite <- (length_map Menu.height), heights_of_options.
  split; [| split].
  - unfold Menu.standardHeights. simpl.
    destruct (fits aspectRatio inW inH 240), (fits aspectRatio inW inH 360),
      (fits aspectRatio inW inH 480), (fits aspectRatio inW inH 720),
      (fits aspectRatio inW inH 1080);
      repeat (constructor; try lia).
  - apply incl_filter.
  - apply (Nat.le_trans _ _ _ (filter_length_le _ _)). reflexivity.
Qed.

(** X3.  An input lower than 240 pixels gets no option at all; an input that
    is at least 240 high and as wide as the 240-line option gets at least
    one. *)
Theorem options_empty_when_input_too_small (aspectRatio : Q) (inW inH : Z) :
  (inH < 240 -> Menu.generateResolutionOptions aspectRatio inW inH = []) /\
  (240 <= inH -> Menu.evenWidth 240 aspectRatio <= inW ->
   Menu.generateResolutionOptions aspectRatio inW inH <> []).
Proof.
  rewrite generate_as_filter. unfold Menu.standardHeights, fits. split.
  - intros Hsmall. simpl.
    repeat match goal with
      |- context [(?h <=? inH) && ?b] =>
        replace (h <=? inH) with false by (symmetry; apply Z.leb_gt; lia); simpl
    end.
    reflexivity.
  - intros Hh Hw. simpl.
    replace (240 <=? inH) with true by (symmetry; apply Z.leb_le; lia).
    replace (Menu.evenWidth 240 aspectRatio <=? inW) with true
      by (symmetry; apply Z.leb_le; lia).
    simpl. discriminate.
Qed.

Lemma suggestedBitrate_monotone (h1 h2 : Z) :
  h1 <= h2 -> Menu.suggestedBitrate h1 <= Menu.suggestedBitrate h2.
Proof.
  intros H. unfold Menu.suggestedBitrate.
  repeat match goal with
    |- context [?a <=? ?b] => destruct (Z.leb_spec a b)
  end; lia.
Qed.

(** X4.  Among the options offered, a taller option never has a lower
    suggested bitrate, and every suggested bitrate is 800, 1200, 2500 or
    4500 kbps. *)
Theorem option_bitrate_grows_with_height (aspectRatio : Q) (inW inH : Z)
    (o1 o2 : Menu.ResolutionOption) :
  In o1 (Menu.generateResolutionOptions aspectRatio inW inH) ->
  In o2 (Menu.generateResolutionOptions aspectRatio inW inH) ->
  In (Menu.bitrate o1) [800; 1200; 2500; 4500] /\
  (Menu.height o1 <= Menu.height o2 -> Menu.bitrate o1 <= Menu.bitrate o2).
Proof.
  intros H1 H2.
  destruct (option_of_height _ _ _ _ H1) as (E1 & _ & _).
  destruct (option_of_height _ _ _ _ H2) as (E2 & _ & _).
  rewrite E1, E2. simpl. split.
  - unfold Menu.suggestedBitrate.
    repeat match goal with
      |- context [?a <=? ?b] => destruct (a <=? b)
    end; simpl; tauto.
  - apply suggestedBitrate_monotone.
Qed.

Lemma option_bitrate_grows_with_height_witness :
  In 800 [800; 1200; 2500; 4500] /\ (360 <= 720 -> 800 <= 2500).
Proof.
  apply (option_bitrate_grows_with_height (16 # 9) 1920 1080
           (Menu.mkOption "640x360" 640 360 800)
           (Menu.mkOption "1280x720" 1280 720 2500));
    vm_compute; tauto.
Defined.

(** X5.  On mount the menu stores the generated options.  When there is at
    least one, it selects the tallest, with that option's bitrate, 20 fps and
    stereo audio, and reports these settings to its parent; when there is
    none, it keeps its settings and reports nothing. *)
Theorem onMount_selects_tallest_option (aspectRatio : Q) (inW inH : Z)
    (settings : OutputSettings) :
  fst (fst (MenuState.onMount aspectRatio inW inH settings))
    = Menu.generateResolutionOptions aspectRatio inW inH /\
  (Menu.generateResolutionOptions aspectRatio inW inH = [] /\
     snd (fst (MenuState.onMount aspectRatio inW inH settings)) = settings /\
     snd (MenuState.onMount aspectRatio inW inH settings) = None
   \/
   exists d,
     In d (Menu.generateResolutionOptions aspectRatio inW inH) /\
     (forall o, In o (Menu.generateResolutionOptions aspectRatio inW inH) ->
                Menu.height o <= Menu.height d) /\
     snd (fst (MenuState.onMount aspectRatio inW inH settings))
       = mkSettings (Menu.label d) 20 (Menu.bitrate d) false /\
     snd (MenuState.onMount aspectRatio inW inH settings)
       = Some (mkSettings (Menu.label d) 20 (Menu.bitrate d) false)).
Proof.
  unfold MenuState.onMount, MenuState.lastOption.
  rewrite generate_as_filter. unfold Menu.standardHeights. simpl filter.
  destruct (fits aspectRatio inW inH 240), (fits aspectRatio inW inH 360),
    (fits aspectRatio inW inH 480), (fits aspectRatio inW inH 720),
    (fits aspectRatio inW inH 1080); cbn -[optionFor];
    (split; [reflexivity |]);
    try (left; repeat split; reflexivity);
    right; eexists; (split; [| split; [| split; reflexivity]]);
    try (intros o Ho; repeat (destruct Ho as [<- | Ho]; [simpl; lia |]);
         destruct Ho);
    tauto.
Qed.

Lemma label_determines_option (aspectRatio : Q) (inW inH : Z)
    (o r : Menu.ResolutionOption) :
  In o (Menu.generateResolutionOptions aspectRatio inW inH) ->
  In r (Menu.generateResolutionOptions aspectRatio inW inH) ->
  Menu.label r = Menu.label o -> r = o.
Proof.
  intros Ho Hr Hl.
  destruct (option_of_height _ _ _ _ Ho) as (Eo & _ & _).
  destruct (option_of_height _ _ _ _ Hr) as (Er & _ & _).
  assert (Hh : Menu.height r = Menu.height o).
  { pose proof (proj1 (resolution_reads_back (Menu.evenWidth (Menu.height o) aspectRatio)
                         (Menu.height o) 0 0 false)) as Po.
    pose proof (proj1 (resolution_reads_back (Menu.evenWidth (Menu.height r) aspectRatio)
                         (Menu.height r) 0 0 false)) as Pr.
    change (Js.ofZ (Menu.evenWidth (Menu.height o) aspectRatio) ++ "x"
              ++ Js.ofZ (Menu.height o))
      with (Menu.label (optionFor aspectRatio (Menu.height o))) in Po.
    change (Js.ofZ (Menu.evenWidth (Menu.height r) aspectRatio) ++ "x"
              ++ Js.ofZ (Menu.height r))
      with (Menu.label (optionFor aspectRatio (Menu.height r))) in Pr.
    rewrite <- Eo in Po. rewrite <- Er in Pr. rewrite Hl in Pr.
    rewrite Po in Pr. congruence. }
  rewrite Eo, Er, Hh. reflexivity.
Qed.

(** X6.  Choosing the label of an offered option sets the resolution to that
    label and the bitrate to that option's suggested bitrate, keeps the frame
    rate and the mono flag, and reports the new settings; choosing a label
    that no stored option carries changes nothing and reports nothing. *)
Theorem handleResolutionChange_follows_option :
  (forall aspectRatio inW inH settings o,
      In o (Menu.generateResolutionOptions aspectRatio inW inH) ->
      MenuState.handleResolutionChange
        (Menu.generateResolutionOptions aspectRatio inW inH) settings (Menu.label o)
      = (mkSettings (Menu.label o) (framerate settings) (Menu.bitrate o)
                    (audioMono settings),
         Some (mkSettings (Menu.label o) (framerate settings) (Menu.bitrate o)
                          (audioMono settings)))) /\
  (forall resolutions settings l,
      (forall o, In o resolutions -> Menu.label o <> l) ->
      MenuState.handleResolutionChange resolutions settings l = (settings, None)).
Proof.
  split.
  - intros aspectRatio inW inH settings o Ho.
    unfold MenuState.handleResolutionChange.
    destruct (find _ _) as [r |] eqn:Hfind.
    + apply find_some in Hfind. destruct Hfind as [Hr Heq].
      apply String.eqb_eq in Heq.
      rewrite (label_determines_option _ _ _ o r Ho Hr Heq). reflexivity.
    + apply (find_none _ _ Hfind) in Ho. rewrite String.eqb_refl in Ho. discriminate.
  - intros resolutions settings l Hnone.
    unfold MenuState.handleResolutionChange.
    destruct (find _ _) as [r |] eqn:Hfind; [| reflexivity].
    apply find_some in Hfind. destruct Hfind as [Hr Heq].
    apply String.eqb_eq in Heq. destruct (Hnone r Hr Heq).
Qed.

Lemma handleResolutionChange_follows_option_witness :
  MenuState.handleResolutionChange
    (Menu.generateResolutionOptions (16 # 9) 1920 1080)
    (mkSettings "1920x1080" 20 4500 true) "640x360"
  = (mkSettings "640x360" 20 800 true, Some (mkSettings "640x360" 20 800 true)).
Proof.
  apply (proj1 handleResolutionChange_follows_option (16 # 9) 1920 1080
           (mkSettings "1920x1080" 20 4500 true)
           (Menu.mkOption "640x360" 640 360 800)).
  vm_compute. tauto.
Defined.

(** X7.  The first menu offers all five standard heights whatever number
    the aspect ratio is.  For a finite ratio every width is an even integer,
    and the dimension-aware menu offers exactly those of the five options
    that fit the input, in the same order.  For a ratio that is [NaN] or an
    infinity (a video height of zero) no width is a number: for [NaN] the
    labels are "NaNx240" to "NaNx1080". *)
Theorem dimension_aware_menu_filters_first_menu :
  (forall aspectRatio,
      map MenuV1.height (MenuV1.generateResolutionOptions aspectRatio)
      = Menu.standardHeights) /\
  (forall r,
      Forall (fun o => exists w, MenuV1.width o = Js.Finite w /\ Z.even w = true)
        (MenuV1.generateResolutionOptions (Js.Finite r))) /\
  (forall r inW inH,
      map withoutBitrate (Menu.generateResolutionOptions r inW inH)
      = filter (fun o => (MenuV1.height o <=? inH) && Js.leNum (MenuV1.width o) inW)
               (MenuV1.generateResolutionOptions (Js.Finite r))) /\
  (forall aspectRatio,
      (forall r, aspectRatio <> Js.Finite r) ->
      Forall (fun o => forall w, MenuV1.width o <> Js.Finite w)
        (MenuV1.generateResolutionOptions aspectRatio)) /\
  map MenuV1.label (MenuV1.generateResolutionOptions Js.NaN)
    = ["NaNx240"; "NaNx360"; "NaNx480"; "NaNx720"; "NaNx1080"].
Proof.
  split; [intros ar; reflexivity |]. split; [| split; [| split]].
  - intros r. unfold MenuV1.generateResolutionOptions. simpl.
    repeat constructor; eexists; (split; [reflexivity | apply round_times_two_even]).
  - intros r inW inH. rewrite generate_as_filter.
    unfold MenuV1.generateResolutionOptions, Menu.standardHeights, fits. simpl.
    change (Js.round (inject_Z ?h * r / 2) * 2) with (Menu.evenWidth h r).
    destruct ((240 <=? inH) && (Menu.evenWidth 240 r <=? inW)),
      ((360 <=? inH) && (Menu.evenWidth 360 r <=? inW)),
      ((480 <=? inH) && (Menu.evenWidth 480 r <=? inW)),
      ((720 <=? inH) && (Menu.evenWidth 720 r <=? inW)),
      ((1080 <=? inH) && (Menu.evenWidth 1080 r <=? inW));
      reflexivity.
  - intros ar Hnf.
    destruct ar as [r | | |]; [exfalso; exact (Hnf r eq_refl) | | |];
      unfold MenuV1.generateResolutionOptions; simpl;
      repeat constructor; intros w; discriminate.
  - reflexivity.
Qed.

(** X8.  When the input is at most 1920 pixels wide, every option the menu
    offers passes the transcoder's full-HD check. *)
Theorem offered_options_pass_resolution_check (aspectRatio : Q) (inW inH fr br : Z)
    (mono : bool) (o : Menu.ResolutionOption) :
  inW <= 1920 ->
  In o (Menu.generateResolutionOptions aspectRatio inW inH) ->
  Transcoder.aboveFullHD (mkSettings (Menu.label o) fr br mono) = false.
Proof.
  intros Hw Hin.
  destruct (option_of_height _ _ _ _ Hin) as (Eo & Hstd & Hfit).
  unfold Transcoder.aboveFullHD.
  rewrite Eo.
  change (Menu.label (optionFor aspectRatio (Menu.height o)))
    with (Js.ofZ (Menu.evenWidth (Menu.height o) aspectRatio) ++ "x"
            ++ Js.ofZ (Menu.height o)).
  rewrite (proj2 (resolution_reads_back _ _ fr br mono)).
  unfold fits in Hfit. apply andb_true_iff in Hfit. destruct Hfit as [_ Hle].
  apply Z.leb_le in Hle. simpl.
  apply orb_false_iff. split; apply Z.ltb_ge; [lia |].
  unfold Menu.standardHeights in Hstd. simpl in Hstd.
  repeat (destruct Hstd as [<- | Hstd]; [lia |]). destruct Hstd.
Qed.

Lemma offered_options_pass_resolution_check_witness :
  Transcoder.aboveFullHD (mkSettings "1280x720" 20 2500 false) = false.
Proof.
  apply (offered_options_pass_resolution_check (16 # 9) 1920 1080 20 2500 false
           (Menu.mkOption "1280x720" 1280 720 2500)).
  - lia.
  - vm_compute. tauto.
Defined.

(** ** Video analysis *)

(** X9.  [analyzeVideo] resolves with [null] exactly when the file is
    missing, the resolution is the empty string, or the metadata fails to
    load. *)
Theorem analyzeVideo_null_cases (inputFile : option File) (settings : OutputSettings)
    (loaded : option Analysis.Metadata) :
  Analysis.analyzeVideo inputFile settings loaded = Analysis.Null <->
  inputFile = None \/ resolution settings = "" \/ loaded = None.
Proof.
  unfold Analysis.analyzeVideo.
  destruct inputFile as [f |]; [| tauto].
  destruct (String.eqb_spec (resolution settings) ""); [tauto |].
  destruct loaded as [m |]; [| tauto].
  destruct (Analysis.maxScaleFactor m settings); split;
    try discriminate; intros [H | [H | H]]; congruence.
Qed.

Lemma label_not_empty (a b : string) : a ++ String "x" b <> "".
Proof. destruct a; discriminate. Qed.

(** X10.  For an input with a positive width, every option of the menu that
    has a positive width is analysed to finite values: the analysis copies
    the width, height and duration of the metadata, assumes 30 fps, and has a
    scale factor of at least 1 (the menu only downscales). *)
Theorem analysis_of_offered_option_downscales (aspectRatio : Q) (fr br : Z)
    (mono : bool) (f : File) (m : Analysis.Metadata) (o : Menu.ResolutionOption) :
  In o (Menu.generateResolutionOptions aspectRatio
          (Analysis.videoWidth m) (Analysis.videoHeight m)) ->
  0 < Menu.width o ->
  exists a,
    Analysis.analyzeVideo (Some f) (mkSettings (Menu.label o) fr br mono) (Some m)
      = Analysis.Finite a /\
    (1 <= scaleFactor a)%Q /\
    inputWidth a = Analysis.videoWidth m /\
    inputHeight a = Analysis.videoHeight m /\
    duration a = Analysis.videoDuration m /\
    inputFramerate a = 30.
Proof.
  intros Hin Hpos.
  destruct (option_of_height _ _ _ _ Hin) as (Eo & Hstd & Hfit).
  assert (Hh : 240 <= Menu.height o).
  { unfold Menu.standardHeights in Hstd. simpl in Hstd.
    repeat (destruct Hstd as [<- | Hstd]; [lia |]). destruct Hstd. }
  unfold fits in Hfit. apply andb_true_iff in Hfit. destruct Hfit as [_ Hle].
  apply Z.leb_le in Hle.
  assert (Hw : Menu.width o = Menu.evenWidth (Menu.height o) aspectRatio)
    by (rewrite Eo at 1; reflexivity).
  unfold Analysis.analyzeVideo, Analysis.maxScaleFactor.
  rewrite Eo.
  change (Menu.label (optionFor aspectRatio (Menu.height o)))
    with (Js.ofZ (Menu.evenWidth (Menu.height o) aspectRatio) ++ "x"
            ++ Js.ofZ (Menu.height o)).
  rewrite (proj1 (resolution_reads_back _ _ fr br mono)).
  rewrite <- Hw.
  replace (Menu.width o =? 0) with false by (symmetry; apply Z.eqb_neq; lia).
  replace (Menu.height o =? 0) with false by (symmetry; apply Z.eqb_neq; lia).
  simpl. rewrite (proj2 (String.eqb_neq _ _) (label_not_empty _ _)).
  eexists. split; [reflexivity |]. simpl.
  repeat split.
  apply Qle_trans with (y := (inject_Z (Analysis.videoWidth m) / inject_Z (Menu.width o))%Q);
    [| apply Q.le_max_l].
  apply Qle_shift_div_l.
  - change 0%Q with (inject_Z 0). rewrite <- Zlt_Qlt. exact Hpos.
  - rewrite Qmult_1_l. rewrite <- Zle_Qle. lia.
Qed.

Lemma analysis_of_offered_option_downscales_witness :
  exists a,
    Analysis.analyzeVideo (Some batchFile) (mkSettings "640x360" 24 800 false)
      (Some (Analysis.mkMetadata 1920 1080 120)) = Analysis.Finite a /\
    (1 <= scaleFactor a)%Q /\
    inputWidth a = 1920 /\ inputHeight a = 1080 /\
    duration a = 120%Q /\ inputFramerate a = 30.
Proof.
  apply (analysis_of_offered_option_downscales (16 # 9) 24 800 false batchFile
           (Analysis.mkMetadata 1920 1080 120)
           (Menu.mkOption "640x360" 640 360 800)).
  - vm_compute. tauto.
  - reflexivity.
Defined.

(** ** Timeout estimators, continued *)

(** X11.  The clamped estimator always returns between 10000 and 120000 ms;
    it returns the floor for a clip of no duration and the ceiling for every
    clip of 3000 s or more, whatever the resolutions. *)
Theorem clamped_budget_floor_and_ceiling (a : VideoAnalysis) (st : OutputSettings) :
  (Clamped.floorMs <= Clamped.calcTimeoutPerHalfPercent a st)%Q /\
  (Clamped.calcTimeoutPerHalfPercent a st <= Clamped.ceilingMs)%Q /\
  ((duration a <= 0)%Q ->
   (Clamped.calcTimeoutPerHalfPercent a st == Clamped.floorMs)%Q) /\
  ((3000 <= duration a)%Q ->
   (Clamped.calcTimeoutPerHalfPercent a st == Clamped.ceilingMs)%Q).
Proof.
  destruct (clamped_within_bounds st a) as [Hlo Hhi].
  split; [exact Hlo |]. split; [exact Hhi |].
  unfold Clamped.calcTimeoutPerHalfPercent, Clamped.expectedSeconds,
    Clamped.complexityFactor, Lib.segmentLength, Clamped.floorMs, Clamped.ceilingMs.
  set (c := Qmax 1 _).
  assert (Hc : (1 <= c)%Q) by apply Q.le_max_l.
  split; intros Hd.
  - apply Q.max_l. apply Qle_trans with (y := (duration a * 0.005 * c * 8 * 1000)%Q);
      [apply Q.le_min_l |].
    assert (H : (duration a * c <= 0)%Q).
    { rewrite <- (Qmult_0_l c). apply Qmult_le_compat_r; [exact Hd | lra]. }
    lra.
  - assert (H : (3000 <= duration a * c)%Q).
    { apply Qle_trans with (y := (3000 * c)%Q); [lra |].
      apply Qmult_le_compat_r; [exact Hd | lra]. }
    assert (Hmin : (Qmin (duration a * 0.005 * c * 8 * 1000) 120000 == 120000)%Q)
      by (apply Q.min_r; lra).
    rewrite Hmin. apply Q.max_r. discriminate.
Qed.

(** X12.  With everything but the duration fixed, a longer clip never gets a
    smaller budget: in the clamped estimator always, and in the shared
    estimator, in both modes, whenever it returns a finite budget for both
    clips. *)
Theorem estimators_monotone_in_duration (w h fr : Z) (sf d1 d2 : Q)
    (st : OutputSettings) (mode : bool) :
  (d1 <= d2)%Q ->
  (Clamped.calcTimeoutPerHalfPercent (mkAnalysis w h sf d1 fr) st <=
   Clamped.calcTimeoutPerHalfPercent (mkAnalysis w h sf d2 fr) st)%Q /\
  (forall b1 b2,
      Lib.calcTimeoutPerHalfPercent (mkAnalysis w h sf d1 fr) st mode = Some b1 ->
      Lib.calcTimeoutPerHalfPercent (mkAnalysis w h sf d2 fr) st mode = Some b2 ->
      (b1 <= b2)%Q).
Proof.
  intros Hd. split.
  - apply clamped_monotone. exact Hd.
  - intros b1 b2. apply shared_monotone. exact Hd.
Qed.

Lemma estimators_monotone_in_duration_witness :
  (Clamped.calcTimeoutPerHalfPercent (mkAnalysis 1920 1080 3 60 30) scenarioSettings <=
   Clamped.calcTimeoutPerHalfPercent (mkAnalysis 1920 1080 3 120 30) scenarioSettings)%Q /\
  (forall b1 b2,
      Lib.calcTimeoutPerHalfPercent (mkAnalysis 1920 1080 3 60 30) scenarioSettings false
        = Some b1 ->
      Lib.calcTimeoutPerHalfPercent (mkAnalysis 1920 1080 3 120 30) scenarioSettings false
        = Some b2 ->
      (b1 <= b2)%Q).
Proof.
  apply (estimators_monotone_in_duration 1920 1080 30 3 60 120 scenarioSettings false).
  discriminate.
Defined.

(** [Math.max(1, x)] is 1 itself when [x] is at most 1. *)
Lemma Qmax_one (x : Q) : (x <= 1)%Q -> Qmax 1 x = 1%Q.
Proof.
  intros Hx. unfold Qmax, GenericMinMax.gmax.
  destruct (1 ?= x)%Q eqn:E; try reflexivity.
  rewrite <- Qlt_alt in E. exfalso. apply (Qlt_not_le _ _ E). exact Hx.
Qed.

(** When the target has no more pixels than a non-empty input, the
    complexity is 1. *)
Lemma complexity_when_not_upscaling (a : VideoAnalysis) (st : OutputSettings) (o : Z) :
  0 < Lib.inputPixels a -> Lib.outputPixels st = Some o -> o <= Lib.inputPixels a ->
  Lib.complexity a st = Some 1%Q.
Proof.
  intros Hin Hout Hle.
  unfold Lib.complexity, Lib.scaleFactorOf.
  rewrite Hout.
  replace (Lib.inputPixels a =? 0) with false by (symmetry; apply Z.eqb_neq; lia).
  f_equal. apply Qmax_one. apply Qle_shift_div_r.
  - change 0%Q with (inject_Z 0). rewrite <- Zlt_Qlt. exact Hin.
  - rewrite Qmult_1_l. rewrite <- Zle_Qle. exact Hle.
Qed.

(** Every option the menu offers for an input of positive width has
    complexity 1. *)
Lemma offered_option_complexity (aspectRatio : Q) (fr br : Z) (mono : bool)
    (a : VideoAnalysis) (o : Menu.ResolutionOption) :
  0 < inputWidth a ->
  In o (Menu.generateResolutionOptions aspectRatio (inputWidth a) (inputHeight a)) ->
  Lib.complexity a (mkSettings (Menu.label o) fr br mono) = Some 1%Q.
Proof.
  intros Hpos Hin.
  destruct (option_of_height _ _ _ _ Hin) as (Eo & Hstd & Hfit).
  assert (Hh : 240 <= Menu.height o).
  { unfold Menu.standardHeights in Hstd. simpl in Hstd.
    repeat (destruct Hstd as [<- | Hstd]; [lia |]). destruct Hstd. }
  unfold fits in Hfit. apply andb_true_iff in Hfit. destruct Hfit as [Hle1 Hle2].
  apply Z.leb_le in Hle1, Hle2.
  apply (complexity_when_not_upscaling a _
           (Menu.evenWidth (Menu.height o) aspectRatio * Menu.height o)).
  - unfold Lib.inputPixels. nia.
  - unfold Lib.outputPixels. rewrite Eo.
    change (Menu.label (optionFor aspectRatio (Menu.height o)))
      with (Js.ofZ (Menu.evenWidth (Menu.height o) aspectRatio) ++ "x"
              ++ Js.ofZ (Menu.height o)).
    rewrite (proj1 (resolution_reads_back _ _ fr br mono)). reflexivity.
  - unfold Lib.inputPixels.
    destruct (Z.le_gt_cases (Menu.evenWidth (Menu.height o) aspectRatio) 0); nia.
Qed.

(** X14.  The budget of the shared estimator does not depend on which option
    of the menu is chosen: for an input with a positive width, every option
    offered for its dimensions has complexity exactly 1 (the menu never
    upscales), so any two of them get the same budget, in either mode and
    whatever the other settings are. *)
Theorem offered_options_get_flat_budget (aspectRatio : Q) (fr br fr' br' : Z)
    (mono mono' mode : bool) (a : VideoAnalysis) (o o' : Menu.ResolutionOption) :
  0 < inputWidth a ->
  In o (Menu.generateResolutionOptions aspectRatio (inputWidth a) (inputHeight a)) ->
  In o' (Menu.generateResolutionOptions aspectRatio (inputWidth a) (inputHeight a)) ->
  Lib.complexity a (mkSettings (Menu.label o) fr br mono) = Some 1%Q /\
  Lib.calcTimeoutPerHalfPercent a (mkSettings (Menu.label o) fr br mono) mode
  = Lib.calcTimeoutPerHalfPercent a (mkSettings (Menu.label o') fr' br' mono') mode.
Proof.
  intros Hpos Hin Hin'.
  pose proof (offered_option_complexity aspectRatio fr br mono a o Hpos Hin) as H.
  pose proof (offered_option_complexity aspectRatio fr' br' mono' a o' Hpos Hin') as H'.
  split; [exact H |].
  unfold Lib.calcTimeoutPerHalfPercent, Lib.expectedSeconds.
  rewrite H, H'. reflexivity.
Qed.

Lemma offered_options_get_flat_budget_witness :
  Lib.complexity scenarioAnalysis (mkSettings "640x360" 24 800 false) = Some 1%Q /\
  Lib.calcTimeoutPerHalfPercent scenarioAnalysis (mkSettings "640x360" 24 800 false) false
  = Lib.calcTimeoutPerHalfPercent scenarioAnalysis
      (mkSettings "1280x720" 20 2500 true) false.
Proof.
  apply (offered_options_get_flat_budget (16 # 9) 24 800 20 2500 false true false
           scenarioAnalysis
           (Menu.mkOption "640x360" 640 360 800)
           (Menu.mkOption "1280x720" 1280 720 2500)).
  - reflexivity.
  - vm_compute. tauto.
  - vm_compute. tauto.
Defined.

(** ** The budget of the ref-based transcoder *)

Lemma processingMultiplier_values (a : VideoAnalysis) :
  Transcoder.processingMultiplier a = 4%Q \/
  Transcoder.processingMultiplier a = 6%Q \/
  Transcoder.processingMultiplier a = 8%Q.
Proof.
  unfold Transcoder.processingMultiplier.
  destruct (Transcoder.gtQ (scaleFactor a) 2.5); [tauto |].
  destruct (Transcoder.gtQ (scaleFactor a) 1.5); tauto.
Qed.

(** X15.  The ref-based transcoder's budget never exceeds 600000 ms; for a
    clip of non-negative duration it is at least 120000 ms, its timer delay
    lies between 120000 and 600000 ms, and a longer clip with the same scale
    factor never gets a smaller budget. *)
Theorem ref_budget_between_two_and_ten_minutes (w h fr : Z) (sf d1 d2 : Q)
    (p : Transcoder.Props) :
  (0 <= d1)%Q -> (d1 <= d2)%Q ->
  (120000 <= Transcoder.timeoutDuration (mkAnalysis w h sf d1 fr))%Q /\
  (Transcoder.timeoutDuration (mkAnalysis w h sf d1 fr) <= 600000)%Q /\
  (Transcoder.timeoutDuration (mkAnalysis w h sf d1 fr)
   <= Transcoder.timeoutDuration (mkAnalysis w h sf d2 fr))%Q /\
  120000 <= Transcoder.watchdogDelay Transcoder.MultiRef p (mkAnalysis w h sf d1 fr)
         <= 600000.
Proof.
  intros H0 Hd.
  unfold Transcoder.watchdogDelay, Js.delay, Transcoder.timeoutDuration.
  assert (Hm : Transcoder.processingMultiplier (mkAnalysis w h sf d1 fr)
               = Transcoder.processingMultiplier (mkAnalysis w h sf d2 fr))
    by reflexivity.
  rewrite <- Hm. simpl duration.
  set (k := Transcoder.processingMultiplier (mkAnalysis w h sf d1 fr)).
  assert (Hk : (0 <= k)%Q).
  { destruct (processingMultiplier_values (mkAnalysis w h sf d1 fr)) as [E | [E | E]];
      unfold k; rewrite E; discriminate. }
  assert (H1 : (0 <= d1 * k)%Q) by (apply Qmult_le_0_compat; assumption).
  assert (H2 : (d1 * k <= d2 * k)%Q) by (apply Qmult_le_compat_r; assumption).
  assert (Hlo : (120000 <= Qmin (d1 * k * 1000 + 120000) 600000)%Q)
    by (apply Q.min_glb; [lra | discriminate]).
  assert (Hhi : (Qmin (d1 * k * 1000 + 120000) 600000 <= 600000)%Q)
    by apply Q.le_min_r.
  split; [exact Hlo |]. split; [exact Hhi |]. split.
  - apply Q.min_le_compat_r. lra.
  - assert (Hf1 : Qfloor 120000 <= Qfloor (Qmin (d1 * k * 1000 + 120000) 600000))
      by (apply Qfloor_resp_le; exact Hlo).
    assert (Hf2 : Qfloor (Qmin (d1 * k * 1000 + 120000) 600000) <= Qfloor 600000)
      by (apply Qfloor_resp_le; exact Hhi).
    change (Qfloor 120000) with 120000 in Hf1.
    change (Qfloor 600000) with 600000 in Hf2. lia.
Qed.

Lemma ref_budget_between_two_and_ten_minutes_witness :
  (120000 <= Transcoder.timeoutDuration (mkAnalysis 1920 1080 3 60 30))%Q /\
  (Transcoder.timeoutDuration (mkAnalysis 1920 1080 3 60 30) <= 600000)%Q /\
  (Transcoder.timeoutDuration (mkAnalysis 1920 1080 3 60 30)
   <= Transcoder.timeoutDuration (mkAnalysis 1920 1080 3 120 30))%Q /\
  120000 <= Transcoder.watchdogDelay Transcoder.MultiRef scenarioProps
              (mkAnalysis 1920 1080 3 60 30)
         <= 600000.
Proof.
  apply (ref_budget_between_two_and_ten_minutes 1920 1080 30 3 60 120 scenarioProps);
    discriminate.
Defined.

(** ** Invariants of the transcoder components *)

Section TranscoderInvariants.
Import Transcoder.

Variable v : Variant.
Variable p : Props.

Lemma runEffect_fields (before after : State) :
  progress (runEffect v p before after) = progress after /\
  calls (runEffect v p before after) = calls after /\
  error (runEffect v p before after) = error after /\
  outputUrl (runEffect v p before after) = outputUrl after /\
  logMessages (runEffect v p before after) = logMessages after /\
  timeoutRef (runEffect v p before after) = timeoutRef after.
Proof.
  unfold runEffect.
  destruct v; try (destruct (depsChanged before after)); simpl; auto 10.
Qed.

Lemma react_progressInRange (s : State) (ev : Event) :
  progressInRange s -> progressInRange (react v p s ev).
Proof.
  unfold progressInRange, react. intros [Hlo Hhi].
  destruct (runEffect_fields s (handle v p s ev)) as (-> & _).
  assert (Hclick : (0 <= progress (transcode v p s))%Q
                   /\ (progress (transcode v p s) <= 100)%Q).
  { unfold transcode.
    destruct (negb (isLoaded s) || isTranscoding s); [tauto |].
    destruct (videoAnalysis s); [| tauto].
    destruct (checksResolution v && aboveFullHD (settings p)); simpl;
      [tauto | split; discriminate]. }
  destruct ev as [| ms | x | m | data | m | | | m | | m]; simpl;
    try exact Hclick; try tauto.
  - unfold elapse. destruct (timer s) as [r |]; [| tauto].
    destruct (r <=? ms); simpl; tauto.
  - unfold onProgress.
    destruct (Qle_bool 0 x) eqn:E0; simpl; [| tauto].
    destruct (Qle_bool x 1) eqn:E1; simpl; [| tauto].
    apply Qle_bool_iff in E0, E1. split; lra.
  - destruct (inFlight s - fetching s - writing s)%nat; simpl; tauto.
  - destruct (inFlight s - fetching s - writing s)%nat; simpl; tauto.
  - destruct (fetching s); simpl; tauto.
  - destruct (fetching s); simpl; tauto.
  - destruct (writing s); simpl; tauto.
  - destruct (writing s); simpl; tauto.
Qed.



Lemma depsChanged_false (s s' : State) :
  depsChanged s s' = false -> isTranscoding s' = isTranscoding s.
Proof.
  unfold depsChanged, effectDeps. simpl. intros H.
  apply negb_false_iff, andb_true_iff in H. destruct H as [_ H].
  apply Bool.eqb_prop in H. congruence.
Qed.

(** The handlers of the effect-based components never arm a timer. *)
Lemma handle_effect_timer (s : State) (ev : Event) :
  v <> MultiRef -> timer (handle v p s ev) <> None -> timer s <> None.
Proof.
  intros Hv.
  assert (Hclick : timer (transcode v p s) <> None -> timer s <> None).
  { unfold transcode.
    destruct (negb (isLoaded s) || isTranscoding s); [tauto |].
    destruct (videoAnalysis s); [| tauto].
    destruct (checksResolution v && aboveFullHD (settings p)); simpl; tauto. }
  destruct ev as [| ms | x | m | data | m | | | m | | m]; simpl;
    try exact Hclick; try tauto.
  - unfold elapse. destruct (timer s) as [r |] eqn:E;
      [intros _; discriminate | intros C; congruence].
  - unfold onProgress. destruct (Qle_bool 0 x && Qle_bool x 1); simpl; [| tauto].
    destruct v; [congruence | tauto | tauto].
  - destruct (inFlight s - fetching s - writing s)%nat; simpl; [tauto |].
    destruct v; [congruence | tauto | tauto].
  - destruct (inFlight s - fetching s - writing s)%nat; simpl; [tauto |].
    destruct v; [congruence | tauto | tauto].
  - destruct (fetching s); simpl; tauto.
  - destruct (fetching s); simpl; [tauto |].
    destruct v; [congruence | tauto | tauto].
  - destruct (writing s); simpl; [tauto |].
    destruct v; [congruence | tauto | tauto].
  - destruct (writing s); simpl; [tauto |].
    destruct v; [congruence | tauto | tauto].
Qed.

End TranscoderInvariants.

(** In the effect-based components a timer is pending only while a job
    runs. *)
Lemma react_timerTied (v : Transcoder.Variant) (p : Transcoder.Props)
    (s : Transcoder.State) (ev : Transcoder.Event) :
  v <> Transcoder.MultiRef ->
  timerTied s -> timerTied (Transcoder.react v p s ev).
Proof.
  intros Hv H. unfold timerTied, Transcoder.react.
  assert (Hrun : Transcoder.runEffect v p s (Transcoder.handle v p s ev)
                 = Transcoder.runEffect Transcoder.MultiEffect p s
                     (Transcoder.handle v p s ev))
    by (destruct v; [congruence | reflexivity | reflexivity]).
  rewrite Hrun. unfold Transcoder.runEffect.
  destruct (Transcoder.depsChanged s (Transcoder.handle v p s ev)) eqn:Hd; simpl.
  - destruct (Transcoder.isTranscoding (Transcoder.handle v p s ev));
      [intros _; reflexivity | congruence].
  - intros C. rewrite (depsChanged_false _ _ Hd).
    apply H. apply (handle_effect_timer v p s ev Hv). exact C.
Qed.

(** In the ref-based component a pending timer is the one [timeoutRef]
    holds; and as long as no watchdog has run, at most one run of
    [transcode] waits and the timer belongs to it. *)
Lemma react_oneJob (p : Transcoder.Props) (s : Transcoder.State)
    (ev : Transcoder.Event) :
  timerHeld s /\ oneJob s ->
  timerHeld (Transcoder.react Transcoder.MultiRef p s ev)
  /\ oneJob (Transcoder.react Transcoder.MultiRef p s ev).
Proof.
  unfold timerHeld, oneJob, timerTied, Transcoder.react, Transcoder.runEffect.
  intros [Hheld Hone].
  assert (Hoff : Transcoder.timeoutRef s = false -> Transcoder.timer s = None).
  { intros Hr. destruct (Transcoder.timer s) eqn:E; [| reflexivity].
    assert (C : Transcoder.timeoutRef s = true) by (apply Hheld; discriminate).
    congruence. }
  assert (Hclear : (if Transcoder.timeoutRef s then None else Transcoder.timer s)
                   = @None Z).
  { destruct (Transcoder.timeoutRef s); [reflexivity | apply Hoff; reflexivity]. }
  assert (Hclick :
    (Transcoder.timer (Transcoder.transcode Transcoder.MultiRef p s) <> None ->
     Transcoder.timeoutRef (Transcoder.transcode Transcoder.MultiRef p s) = true) /\
    (Transcoder.timeouts (Transcoder.transcode Transcoder.MultiRef p s) = 0%nat ->
     (Transcoder.fetching (Transcoder.transcode Transcoder.MultiRef p s)
      + Transcoder.writing (Transcoder.transcode Transcoder.MultiRef p s)
      <= Transcoder.inFlight (Transcoder.transcode Transcoder.MultiRef p s))%nat /\
     (Transcoder.inFlight (Transcoder.transcode Transcoder.MultiRef p s)
      <= (if Transcoder.isTranscoding (Transcoder.transcode Transcoder.MultiRef p s)
          then 1 else 0))%nat /\
     (Transcoder.timer (Transcoder.transcode Transcoder.MultiRef p s) <> None ->
      Transcoder.isTranscoding (Transcoder.transcode Transcoder.MultiRef p s) = true))).
  { unfold Transcoder.transcode.
    destruct (Transcoder.isLoaded s); simpl; [| tauto].
    destruct (Transcoder.isTranscoding s) eqn:Ht; simpl; [rewrite Ht; tauto |].
    destruct (Transcoder.videoAnalysis s); [| rewrite Ht; tauto].
    destruct (Transcoder.aboveFullHD (Transcoder.settings p)); simpl; [tauto |].
    split; [exact Hheld |]. intros H0. destruct (Hone H0) as (H1 & H2 & H3).
    split; [lia |]. split; [lia | reflexivity]. }
  destruct ev as [| ms | x | m | data | m | | | m | | m]; simpl;
    try exact Hclick; try tauto.
  - (* Elapse *)
    unfold Transcoder.elapse.
    destruct (Transcoder.timer s) as [r |] eqn:Hr; [| rewrite Hr; tauto].
    destruct (r <=? ms); simpl.
    + split; [congruence | discriminate].
    + split; [intros _; apply Hheld; discriminate |].
      intros H0. destruct (Hone H0) as (H1 & H2 & H3).
      split; [exact H1 |]. split; [exact H2 |]. intros _. apply H3. discriminate.
  - (* ProgressEv *)
    unfold Transcoder.onProgress.
    destruct (Qle_bool 0 x && Qle_bool x 1); simpl; [| tauto].
    rewrite Hclear. split; [congruence |].
    intros H0. destruct (Hone H0) as (H1 & H2 & H3). split; [exact H1 |].
    split; [exact H2 | congruence].
  - (* ExecResolved *)
    unfold Transcoder.pending.
    destruct (Transcoder.inFlight s - Transcoder.fetching s - Transcoder.writing s)%nat
      eqn:E; simpl; [tauto |].
    rewrite Hclear. split; [congruence |].
    intros H0. destruct (Hone H0) as (H1 & H2 & H3).
    split; [lia |]. split; [destruct (Transcoder.isTranscoding s); lia | congruence].
  - (* ExecRejected *)
    unfold Transcoder.pending.
    destruct (Transcoder.inFlight s - Transcoder.fetching s - Transcoder.writing s)%nat
      eqn:E; simpl; [tauto |].
    rewrite Hclear. split; [congruence |].
    intros H0. destruct (Hone H0) as (H1 & H2 & H3).
    split; [lia |]. split; [destruct (Transcoder.isTranscoding s); lia | congruence].
  - (* FileFetched *)
    destruct (Transcoder.fetching s) eqn:E; simpl; [rewrite E; tauto |].
    split; [exact Hheld |].
    intros H0. destruct (Hone H0) as (H1 & H2 & H3).
    split; [lia |]. split; [exact H2 | exact H3].
  - (* FetchRejected *)
    destruct (Transcoder.fetching s) eqn:E; simpl; [rewrite E; tauto |].
    rewrite Hclear. split; [congruence |].
    intros H0. destruct (Hone H0) as (H1 & H2 & H3).
    split; [lia |]. split; [destruct (Transcoder.isTranscoding s); lia | congruence].
  - (* FileWritten *)
    destruct (Transcoder.writing s) eqn:E; simpl; [rewrite E; tauto |].
    split; [reflexivity |].
    intros H0. destruct (Hone H0) as (H1 & H2 & H3).
    split; [lia |]. split; [exact H2 |]. intros _.
    destruct (Transcoder.isTranscoding s); [reflexivity | lia].
  - (* WriteRejected *)
    destruct (Transcoder.writing s) eqn:E; simpl; [rewrite E; tauto |].
    rewrite Hclear. split; [congruence |].
    intros H0. destruct (Hone H0) as (H1 & H2 & H3).
    split; [lia |]. split; [destruct (Transcoder.isTranscoding s); lia | congruence].
Qed.

(** X16.  The progress shown stays a percentage: whatever the engine
    reports, and in whatever order things happen, a progress value between 0
    and 100 stays between 0 and 100 (reports outside [0, 1] are dropped). *)
Theorem progress_stays_a_percentage (v : Transcoder.Variant) (p : Transcoder.Props)
    (evs : list Transcoder.Event) (s : Transcoder.State) :
  (0 <= Transcoder.progress s)%Q -> (Transcoder.progress s <= 100)%Q ->
  (0 <= Transcoder.progress (Transcoder.run v p s evs))%Q /\
  (Transcoder.progress (Transcoder.run v p s evs) <= 100)%Q.
Proof.
  intros Hlo Hhi.
  apply (run_invariant progressInRange v p (react_progressInRange v p) evs s).
  split; assumption.
Qed.

Lemma progress_stays_a_percentage_witness :
  (0 <= Transcoder.progress
          (Transcoder.run Transcoder.MultiEffect scenarioProps
             (Transcoder.ready scenarioAnalysis)
             [Transcoder.Start; Transcoder.ProgressEv 0.5; Transcoder.ProgressEv 1.5;
              Transcoder.ProgressEv (-1)]))%Q /\
  (Transcoder.progress
     (Transcoder.run Transcoder.MultiEffect scenarioProps
        (Transcoder.ready scenarioAnalysis)
        [Transcoder.Start; Transcoder.ProgressEv 0.5; Transcoder.ProgressEv 1.5;
         Transcoder.ProgressEv (-1)]) <= 100)%Q.
Proof.
  apply (progress_stays_a_percentage Transcoder.MultiEffect scenarioProps);
    discriminate.
Defined.

(** X17.  In the effect-based components no watchdog outlives its job: if a
    pending timer implies a running job to begin with, then after any
    sequence of events no timer is pending while no job runs.  In the
    ref-based component the same holds from an idle component until the
    first watchdog run; after one it can fail: when a job has timed out, a
    second one has been started and the first [exec] resolves while the
    second job still waits for its input, the second job's watchdog is
    armed although no job counts as running, and it later reports a timeout
    on the idle component. *)
Theorem watchdog_disarmed_when_idle :
  (forall v p evs s,
      v <> Transcoder.MultiRef ->
      (Transcoder.timer s <> None -> Transcoder.isTranscoding s = true) ->
      Transcoder.isTranscoding (Transcoder.run v p s evs) = false ->
      Transcoder.timer (Transcoder.run v p s evs) = None) /\
  (forall p evs s,
      idle s ->
      Transcoder.timeouts (Transcoder.run Transcoder.MultiRef p s evs) = 0%nat ->
      Transcoder.isTranscoding (Transcoder.run Transcoder.MultiRef p s evs) = false ->
      Transcoder.timer (Transcoder.run Transcoder.MultiRef p s evs) = None) /\
  (Transcoder.isTranscoding
     (Transcoder.run Transcoder.MultiRef scenarioProps
        (Transcoder.ready scenarioAnalysis) overlappingJobs) = false /\
   Transcoder.timer
     (Transcoder.run Transcoder.MultiRef scenarioProps
        (Transcoder.ready scenarioAnalysis) overlappingJobs) = Some 600000 /\
   Transcoder.outputUrl
     (Transcoder.run Transcoder.MultiRef scenarioProps
        (Transcoder.ready scenarioAnalysis) overlappingJobs) = Some "bytes" /\
   Transcoder.error
     (Transcoder.run Transcoder.MultiRef scenarioProps
        (Transcoder.ready scenarioAnalysis) overlappingJobs) = None /\
   Transcoder.error
     (Transcoder.run Transcoder.MultiRef scenarioProps
        (Transcoder.ready scenarioAnalysis)
        (overlappingJobs ++ [Transcoder.Elapse 600000]))
     = Some (Transcoder.timeoutMessage Transcoder.MultiRef)).
Proof.
  split; [| split].
  - intros v p evs s Hv Htied Hidle.
    pose proof (run_invariant timerTied v p
                  (fun s0 ev => react_timerTied v p s0 ev Hv) evs s Htied) as H.
    destruct (Transcoder.timer (Transcoder.run v p s evs)) eqn:E; [| reflexivity].
    unfold timerTied in H. rewrite E in H.
    assert (C : Transcoder.isTranscoding (Transcoder.run v p s evs) = true)
      by (apply H; discriminate).
    congruence.
  - intros p evs s (Ht & Hi & Hf & Hw & Htm & Hn) H0 Hidle.
    assert (Hinit : timerHeld s /\ oneJob s).
    { unfold timerHeld, oneJob, timerTied. rewrite Htm, Hi, Hf, Hw, Ht.
      split; [congruence |]. intros _. split; [lia |]. split; [lia | congruence]. }
    pose proof (run_invariant (fun x => timerHeld x /\ oneJob x) Transcoder.MultiRef p
                  (react_oneJob p) evs s Hinit) as [_ Hone].
    destruct (Hone H0) as (_ & _ & Htied).
    destruct (Transcoder.timer (Transcoder.run Transcoder.MultiRef p s evs)) eqn:E;
      [| reflexivity].
    unfold timerTied in Htied. rewrite E in Htied.
    assert (C : Transcoder.isTranscoding (Transcoder.run Transcoder.MultiRef p s evs)
                = true) by (apply Htied; discriminate).
    congruence.
  - split; [by_evaluation |]. split; [by_evaluation |]. split; [by_evaluation |].
    split; by_evaluation.
Qed.

Lemma watchdog_disarmed_when_idle_witness :
  Transcoder.timer
    (Transcoder.run Transcoder.SingleEffect scenarioProps
       (Transcoder.ready scenarioAnalysis)
       [Transcoder.Click; Transcoder.FileFetched; Transcoder.WriteRejected "full"])
  = None.
Proof.
  apply (proj1 watchdog_disarmed_when_idle Transcoder.SingleEffect scenarioProps
           [Transcoder.Click; Transcoder.FileFetched; Transcoder.WriteRejected "full"]
           (Transcoder.ready scenarioAnalysis)).
  - discriminate.
  - intros C. exfalso. apply C. reflexivity.
  - reflexivity.
Defined.



(** ** Silence, and what a click sets off *)

Section Silence.
Import Transcoder.

Variable v : Variant.
Variable p : Props.
Variable a : VideoAnalysis.

(** The watchdog fires when its time is up. *)
Lemma elapse_fires (t0 : nat) (rem : Z) (s : State) (dt : Z) :
  running a t0 (Some rem) s -> rem <= dt ->
  timedOut v t0 (step v p s (Elapse dt)) /\
  inFlight (step v p s (Elapse dt)) = inFlight s /\
  calls (step v p s (Elapse dt)) = calls s.
Proof.
  intros (Ht & He & Ho & Hn & Ha & Htm) Hle.
  unfold timedOut, step, react, handle, elapse. rewrite Htm.
  replace (rem <=? dt) with true by (symmetry; apply Z.leb_le; exact Hle).
  unfold runEffect. destruct v; simpl;
    try (rewrite depsChanged_flag by (simpl; rewrite Ht; reflexivity));
    simpl; rewrite Ho, Hn; auto 10.
Qed.

(** A quiet event ends no run of [transcode]. *)
Lemma quiet_inFlight (s : State) (ev : Event) :
  quiet v ev = true -> inFlight (step v p s ev) = inFlight s.
Proof.
  intros Hq.
  destruct ev as [| ms | x | m | data | m | | | m | | m]; try discriminate Hq;
    unfold step, react;
    match goal with |- context [runEffect v p s ?x] =>
      destruct (runEffect_counters v p s x) as (-> & _)
    end; simpl.
  - unfold elapse. destruct (timer s) as [r |]; [| reflexivity].
    destruct (r <=? ms); reflexivity.
  - unfold onProgress. destruct (Qle_bool 0 x && Qle_bool x 1); reflexivity.
  - reflexivity.
  - destruct (fetching s); reflexivity.
  - destruct (writing s); reflexivity.
Qed.

(** A quiet event reaches a running job: either the job runs on, or the
    event is the passing of the time the watchdog had left. *)
Lemma silent_step (t0 : nat) (rem : Z) (s : State) (ev : Event) :
  running a t0 (Some rem) s -> (v = MultiRef -> timeoutRef s = true) ->
  quiet v ev = true ->
  (running a t0 (Some (rem - elapsed [ev])) (step v p s ev)
   /\ (v = MultiRef -> timeoutRef (step v p s ev) = true)
   \/ timedOut v t0 (step v p s ev)) /\
  inFlight (step v p s ev) = inFlight s.
Proof.
  intros Hs Href Hq. split; [| apply quiet_inFlight; exact Hq].
  assert (Hgo : (forall ms, ev = Elapse ms -> ms < rem) ->
                running a t0 (Some (rem - elapsed [ev])) (step v p s ev)
                /\ (v = MultiRef -> timeoutRef (step v p s ev) = true)).
  { intros Hlt.
    destruct (quiet_step v p a t0 rem s ev Hs Href Hq Hlt) as (H1 & H2 & _).
    split; assumption. }
  destruct ev as [| ms | x | m | data | m | | | m | | m]; try discriminate Hq;
    try (left; apply Hgo; intros ms0 C; discriminate C).
  destruct (Z_lt_le_dec ms rem) as [Hlt | Hle].
  - left. apply Hgo. intros ms0 C. inversion C. subst. exact Hlt.
  - right. apply (elapse_fires t0 rem s ms Hs Hle).
Qed.

(** Once the timeout is reported, quiet events and the passing of time
    change nothing in the report, and end no run of [transcode]. *)
Lemma timedOut_step (t0 : nat) (s : State) (ev : Event) :
  timedOut v t0 s -> (quiet v ev = true \/ exists dt, ev = Elapse dt) ->
  timedOut v t0 (step v p s ev) /\ inFlight (step v p s ev) = inFlight s.
Proof.
  intros (He & Ht & Ho & Hn & Htm) Hq. unfold timedOut.
  assert (Hel : forall dt, step v p s (Elapse dt) = s).
  { intros dt. unfold step, react, handle, elapse. rewrite Htm.
    apply runEffect_same; reflexivity. }
  destruct Hq as [Hq | [dt ->]]; [| rewrite Hel; auto 10].
  destruct ev as [| ms | x | m | data | m | | | m | | m]; try discriminate Hq;
    [rewrite Hel; auto 10 | | | |]; unfold step, react, handle.
  - unfold onProgress. destruct v; simpl in Hq.
    + apply negb_true_iff in Hq. rewrite Hq. simpl. auto 10.
    + destruct (Qle_bool 0 x && Qle_bool x 1);
        rewrite runEffect_same by reflexivity; simpl; auto 10.
    + destruct (Qle_bool 0 x && Qle_bool x 1);
        rewrite runEffect_same by reflexivity; simpl; auto 10.
  - destruct v; simpl in Hq; try discriminate Hq. simpl. auto 10.
  - destruct v; simpl in Hq; try discriminate Hq;
      (destruct (pending AtFetch s);
       rewrite runEffect_same by reflexivity; simpl; auto 10).
  - destruct v; simpl in Hq; try discriminate Hq;
      (destruct (pending AtWrite s);
       rewrite runEffect_same by reflexivity; simpl; auto 10).
Qed.

Lemma timedOut_run (t0 : nat) (evs : list Event) :
  forallb (quiet v) evs = true ->
  forall s, timedOut v t0 s ->
    timedOut v t0 (run v p s evs) /\ inFlight (run v p s evs) = inFlight s.
Proof.
  induction evs as [| ev evs IH]; intros Hq s Hs; simpl; [auto |].
  simpl in Hq. apply andb_true_iff in Hq. destruct Hq as [Hq Hrest].
  destruct (timedOut_step t0 s ev Hs (or_introl Hq)) as [H1 H2].
  destruct (IH Hrest _ H1) as [H3 H4]. split; [exact H3 | congruence].
Qed.

Lemma silent_run (t0 : nat) (evs : list Event) :
  forallb (quiet v) evs = true ->
  forall rem s, running a t0 (Some rem) s -> (v = MultiRef -> timeoutRef s = true) ->
    (running a t0 (Some (rem - elapsed evs)) (run v p s evs)
     \/ timedOut v t0 (run v p s evs)) /\
    inFlight (run v p s evs) = inFlight s.
Proof.
  induction evs as [| ev evs IH]; intros Hq rem s Hs Href.
  - simpl. rewrite Z.sub_0_r. auto.
  - simpl in Hq. apply andb_true_iff in Hq. destruct Hq as [Hq Hrest].
    change (ev :: evs) with ([ev] ++ evs)%list.
    rewrite elapsed_app, run_app.
    change (run v p s [ev]) with (step v p s ev).
    destruct (silent_step t0 rem s ev Hs Href Hq) as [[[H1 Href'] | H1] H2].
    + destruct (IH Hrest _ _ H1 Href') as [H3 H4].
      replace (rem - (elapsed [ev] + elapsed evs))
        with (rem - elapsed [ev] - elapsed evs) by lia.
      split; [exact H3 | congruence].
    + destruct (timedOut_run t0 evs Hrest _ H1) as [H3 H4].
      split; [right; exact H3 | congruence].
Qed.

(** Silence for the time the watchdog has left, or longer, ends in the
    report of a timeout. *)
Lemma silence_times_out (t0 : nat) (rem : Z) (s : State) (evs : list Event) (dt : Z) :
  running a t0 (Some rem) s -> (v = MultiRef -> timeoutRef s = true) ->
  forallb (quiet v) evs = true ->
  rem <= elapsed evs + dt ->
  timedOut v t0 (run v p s (evs ++ [Elapse dt])) /\
  inFlight (run v p s (evs ++ [Elapse dt])) = inFlight s.
Proof.
  intros Hs Href Hq Hle. rewrite run_app.
  change (run v p (run v p s evs) [Elapse dt])
    with (step v p (run v p s evs) (Elapse dt)).
  destruct (silent_run t0 evs Hq rem s Hs Href) as [[H1 | H1] H2].
  - destruct (elapse_fires t0 _ _ dt H1) as (H3 & H4 & _); [lia |].
    split; [exact H3 | congruence].
  - destruct (timedOut_step t0 _ (Elapse dt) H1) as [H3 H4]; [right; eauto |].
    split; [exact H3 | congruence].
Qed.

End Silence.

(** X19.  Silence ends in the report of a timeout, and the run of
    [transcode] is not cancelled by it.  In the effect-based components the
    silence counts from the click: when only quiet events arrive for the
    watchdog delay or longer, the job is reported as stuck, even if its
    input was still being fetched or written, and then before any engine
    call.  In the ref-based component the silence counts from the call of
    [exec]: however long the input takes to be fetched and written, the job
    keeps running; once [exec] is called, silence for the delay ends in the
    timeout report. *)
Theorem silent_job_times_out :
  (forall v p a s evs dt,
      v <> Transcoder.MultiRef ->
      Transcoder.isLoaded s = true ->
      Transcoder.isTranscoding s = false ->
      Transcoder.videoAnalysis s = Some a ->
      Transcoder.checksResolution v && Transcoder.aboveFullHD (Transcoder.settings p)
        = false ->
      forallb (quiet v) evs = true ->
      Transcoder.watchdogDelay v p a <= elapsed evs + dt ->
      Transcoder.error
        (Transcoder.run v p s (Transcoder.Click :: evs ++ [Transcoder.Elapse dt])%list)
        = Some (Transcoder.timeoutMessage v) /\
      Transcoder.isTranscoding
        (Transcoder.run v p s (Transcoder.Click :: evs ++ [Transcoder.Elapse dt])%list)
        = false /\
      Transcoder.outputUrl
        (Transcoder.run v p s (Transcoder.Click :: evs ++ [Transcoder.Elapse dt])%list)
        = None /\
      Transcoder.timeouts
        (Transcoder.run v p s (Transcoder.Click :: evs ++ [Transcoder.Elapse dt])%list)
        = S (Transcoder.timeouts s) /\
      Transcoder.inFlight
        (Transcoder.run v p s (Transcoder.Click :: evs ++ [Transcoder.Elapse dt])%list)
        = S (Transcoder.inFlight s)) /\
  (forall v p a s dt,
      v <> Transcoder.MultiRef ->
      Transcoder.isLoaded s = true ->
      Transcoder.isTranscoding s = false ->
      Transcoder.videoAnalysis s = Some a ->
      Transcoder.checksResolution v && Transcoder.aboveFullHD (Transcoder.settings p)
        = false ->
      Transcoder.watchdogDelay v p a <= dt ->
      Transcoder.error
        (Transcoder.run v p s [Transcoder.Click; Transcoder.Elapse dt])
        = Some (Transcoder.timeoutMessage v) /\
      Transcoder.calls
        (Transcoder.run v p s [Transcoder.Click; Transcoder.Elapse dt])
        = Transcoder.calls s) /\
  (forall p a s upload written evs dt,
      Transcoder.isLoaded s = true ->
      Transcoder.isTranscoding s = false ->
      Transcoder.videoAnalysis s = Some a ->
      Transcoder.aboveFullHD (Transcoder.settings p) = false ->
      Transcoder.timer s = None ->
      Transcoder.fetching s = 0%nat ->
      Transcoder.writing s = 0%nat ->
      forallb uneventful upload = true ->
      forallb uneventful written = true ->
      forallb (quiet Transcoder.MultiRef) evs = true ->
      Transcoder.watchdogDelay Transcoder.MultiRef p a <= elapsed evs + dt ->
      Transcoder.isTranscoding
        (Transcoder.run Transcoder.MultiRef p s
           (Transcoder.Click :: upload ++ [Transcoder.FileFetched] ++ written)%list)
        = true /\
      Transcoder.timeouts
        (Transcoder.run Transcoder.MultiRef p s
           (Transcoder.Click :: upload ++ [Transcoder.FileFetched] ++ written)%list)
        = Transcoder.timeouts s /\
      Transcoder.error
        (Transcoder.run Transcoder.MultiRef p s
           (Transcoder.Click :: upload ++ [Transcoder.FileFetched] ++ written
              ++ [Transcoder.FileWritten] ++ evs ++ [Transcoder.Elapse dt])%list)
        = Some (Transcoder.timeoutMessage Transcoder.MultiRef) /\
      Transcoder.isTranscoding
        (Transcoder.run Transcoder.MultiRef p s
           (Transcoder.Click :: upload ++ [Transcoder.FileFetched] ++ written
              ++ [Transcoder.FileWritten] ++ evs ++ [Transcoder.Elapse dt])%list)
        = false /\
      Transcoder.timeouts
        (Transcoder.run Transcoder.MultiRef p s
           (Transcoder.Click :: upload ++ [Transcoder.FileFetched] ++ written
              ++ [Transcoder.FileWritten] ++ evs ++ [Transcoder.Elapse dt])%list)
        = S (Transcoder.timeouts s) /\
      Transcoder.inFlight
        (Transcoder.run Transcoder.MultiRef p s
           (Transcoder.Click :: upload ++ [Transcoder.FileFetched] ++ written
              ++ [Transcoder.FileWritten] ++ evs ++ [Transcoder.Elapse dt])%list)
        = S (Transcoder.inFlight s)).
Proof.
  split; [| split].
  - intros v p a s evs dt Hv Hl Ht Ha Hok Hq Hle.
    destruct (click_accepted v p a s Hl Ht Ha Hok) as (Hrun & (Hin & _) & _).
    assert (Hclick : running a (Transcoder.timeouts s)
                       (Some (Transcoder.watchdogDelay v p a))
                       (Transcoder.step v p s Transcoder.Click))
      by (destruct v; [congruence | exact Hrun | exact Hrun]).
    change (Transcoder.Click :: evs ++ [Transcoder.Elapse dt])%list
      with ([Transcoder.Click] ++ evs ++ [Transcoder.Elapse dt])%list.
    rewrite run_app.
    change (Transcoder.run v p s [Transcoder.Click])
      with (Transcoder.step v p s Transcoder.Click).
    destruct (silence_times_out v p a _ _ _ evs dt Hclick
                (fun C => False_ind _ (Hv C)) Hq Hle)
      as ((H1 & H2 & H3 & H4 & _) & H5).
    rewrite H5, Hin. auto.
  - intros v p a s dt Hv Hl Ht Ha Hok Hle.
    destruct (click_accepted v p a s Hl Ht Ha Hok) as (Hrun & _ & Hcalls & _).
    assert (Hclick : running a (Transcoder.timeouts s)
                       (Some (Transcoder.watchdogDelay v p a))
                       (Transcoder.step v p s Transcoder.Click))
      by (destruct v; [congruence | exact Hrun | exact Hrun]).
    change (Transcoder.run v p s [Transcoder.Click; Transcoder.Elapse dt])
      with (Transcoder.step v p (Transcoder.step v p s Transcoder.Click)
              (Transcoder.Elapse dt)).
    destruct (elapse_fires v p a _ _ _ dt Hclick Hle) as ((H1 & _) & _ & H3).
    split; [exact H1 | congruence].
  - intros p a s upload written evs dt Hl Ht Ha Hok Htm Hf Hw Hu1 Hu2 Hq Hle.
    destruct (click_accepted Transcoder.MultiRef p a s Hl Ht Ha Hok)
      as (H0 & W0 & _ & _).
    rewrite Htm, Hf, Hw in *.
    set (t0 := Transcoder.timeouts s) in *.
    change (Transcoder.Click :: ?l)%list with ([Transcoder.Click] ++ l)%list.
    repeat rewrite run_app.
    change (Transcoder.run Transcoder.MultiRef p s [Transcoder.Click])
      with (Transcoder.step Transcoder.MultiRef p s Transcoder.Click).
    set (s0 := Transcoder.step Transcoder.MultiRef p s Transcoder.Click) in *.
    destruct (uneventful_run Transcoder.MultiRef p a t0 upload eq_refl Hu1 s0 H0)
      as (H1 & W1).
    unfold waiting in W0. destruct W0 as (E1 & E2 & E3).
    rewrite E1, E2, E3 in W1.
    set (s1 := Transcoder.run Transcoder.MultiRef p s0 upload) in *.
    destruct (fetched_step Transcoder.MultiRef p a t0 None _ _ _ s1 H1 W1)
      as (H2 & W2 & _ & _).
    change (Transcoder.run Transcoder.MultiRef p s1 [Transcoder.FileFetched])
      with (Transcoder.step Transcoder.MultiRef p s1 Transcoder.FileFetched).
    set (s2 := Transcoder.step Transcoder.MultiRef p s1 Transcoder.FileFetched) in *.
    destruct (uneventful_run Transcoder.MultiRef p a t0 written eq_refl Hu2 s2 H2)
      as (H3 & W3).
    unfold waiting in W2. destruct W2 as (E4 & E5 & E6).
    rewrite E4, E5, E6 in W3.
    set (s3 := Transcoder.run Transcoder.MultiRef p s2 written) in *.
    split; [apply H3 |]. split; [apply H3 |].
    destruct (written_step Transcoder.MultiRef p a t0 None _ _ _ s3 H3 W3)
      as (H4 & W4 & R4 & _).
    change (Transcoder.run Transcoder.MultiRef p s3 [Transcoder.FileWritten])
      with (Transcoder.step Transcoder.MultiRef p s3 Transcoder.FileWritten).
    set (s4 := Transcoder.step Transcoder.MultiRef p s3 Transcoder.FileWritten) in *.
    rewrite <- run_app.
    destruct (silence_times_out Transcoder.MultiRef p a _ _ _ evs dt H4 R4 Hq Hle)
      as ((H5 & H6 & _ & H7 & _) & H8).
    destruct W4 as (E7 & _). rewrite H8, E7. auto.
Qed.

Lemma silent_job_times_out_witness :
  Transcoder.error
    (Transcoder.run Transcoder.SingleEffect scenarioProps
       (Transcoder.ready scenarioAnalysis)
       (Transcoder.Click
          :: [Transcoder.Elapse 1000; Transcoder.FileFetched; Transcoder.Elapse 1000]
          ++ [Transcoder.Elapse 400])%list)
    = Some (Transcoder.timeoutMessage Transcoder.SingleEffect) /\
  Transcoder.isTranscoding
    (Transcoder.run Transcoder.SingleEffect scenarioProps
       (Transcoder.ready scenarioAnalysis)
       (Transcoder.Click
          :: [Transcoder.Elapse 1000; Transcoder.FileFetched; Transcoder.Elapse 1000]
          ++ [Transcoder.Elapse 400])%list)
    = false /\
  Transcoder.outputUrl
    (Transcoder.run Transcoder.SingleEffect scenarioProps
       (Transcoder.ready scenarioAnalysis)
       (Transcoder.Click
          :: [Transcoder.Elapse 1000; Transcoder.FileFetched; Transcoder.Elapse 1000]
          ++ [Transcoder.Elapse 400])%list)
    = None /\
  Transcoder.timeouts
    (Transcoder.run Transcoder.SingleEffect scenarioProps
       (Transcoder.ready scenarioAnalysis)
       (Transcoder.Click
          :: [Transcoder.Elapse 1000; Transcoder.FileFetched; Transcoder.Elapse 1000]
          ++ [Transcoder.Elapse 400])%list)
    = 1%nat /\
  Transcoder.inFlight
    (Transcoder.run Transcoder.SingleEffect scenarioProps
       (Transcoder.ready scenarioAnalysis)
       (Transcoder.Click
          :: [Transcoder.Elapse 1000; Transcoder.FileFetched; Transcoder.Elapse 1000]
          ++ [Transcoder.Elapse 400])%list)
    = 1%nat.
Proof.
  apply (proj1 silent_job_times_out Transcoder.SingleEffect scenarioProps
           scenarioAnalysis (Transcoder.ready scenarioAnalysis)
           [Transcoder.Elapse 1000; Transcoder.FileFetched; Transcoder.Elapse 1000]
           400).
  - discriminate.
  - reflexivity.
  - reflexivity.
  - reflexivity.
  - reflexivity.
  - reflexivity.
  - vm_compute. discriminate.
Defined.

(** What the settlement of the promise a run waits for leaves behind when
    it is a rejection: no engine call, and the job no longer counts as
    running. *)
Lemma rejected_step (v : Transcoder.Variant) (p : Transcoder.Props)
    (s : Transcoder.State) (w : Transcoder.Await) (m : string) :
  Transcoder.pending w s <> 0%nat ->
  let ev := match w with
            | Transcoder.AtFetch => Transcoder.FetchRejected m
            | Transcoder.AtWrite => Transcoder.WriteRejected m
            | Transcoder.AtExec => Transcoder.ExecRejected m
            end in
  Transcoder.calls (Transcoder.step v p s ev) = Transcoder.calls s /\
  Transcoder.isTranscoding (Transcoder.step v p s ev) = false /\
  Transcoder.inFlight (Transcoder.step v p s ev) = pred (Transcoder.inFlight s).
Proof.
  intros Hp ev. subst ev.
  destruct w; unfold Transcoder.step, Transcoder.react, Transcoder.handle;
    (destruct (Transcoder.pending _ s); [congruence |]);
    match goal with |- context [Transcoder.runEffect v p s ?x] =>
      destruct (runEffect_fields v p s x) as (_ & -> & _);
      destruct (runEffect_counters v p s x) as (-> & _ & _ & _ & ->)
    end; simpl; auto.
Qed.

(** X20.  A click issues no engine call by itself.  It sets a run of
    [transcode] going exactly when the guards hold (engine loaded, no job
    running, analysis present and, in the components that check it, a
    resolution within full HD): the display is reset and the run waits for
    its input; [writeFile] is called when the input is fetched and [exec]
    when it is written; if the fetch or the write is rejected, the job ends
    without a call of [exec].  When a guard fails, the click leaves the
    running flag, the output, the log, the engine and the waiting runs as
    they were. *)
Theorem start_reaches_engine_iff_guards_hold (v : Transcoder.Variant)
    (p : Transcoder.Props) (s : Transcoder.State) :
  (Transcoder.accepts v p s = true ->
   Transcoder.calls (Transcoder.step v p s Transcoder.Click) = Transcoder.calls s /\
   Transcoder.inFlight (Transcoder.step v p s Transcoder.Click)
     = S (Transcoder.inFlight s) /\
   Transcoder.isTranscoding (Transcoder.step v p s Transcoder.Click) = true /\
   Transcoder.error (Transcoder.step v p s Transcoder.Click) = None /\
   Transcoder.outputUrl (Transcoder.step v p s Transcoder.Click) = None /\
   Transcoder.logMessages (Transcoder.step v p s Transcoder.Click) = [] /\
   Transcoder.calls
     (Transcoder.run v p s [Transcoder.Click; Transcoder.FileFetched])
     = (Transcoder.calls s
        ++ [Transcoder.WriteFile (Transcoder.inputFilename p)])%list /\
   Transcoder.calls
     (Transcoder.run v p s
        [Transcoder.Click; Transcoder.FileFetched; Transcoder.FileWritten])
     = (Transcoder.calls s
        ++ [Transcoder.WriteFile (Transcoder.inputFilename p);
            Transcoder.Exec (Transcoder.execArgs p)])%list /\
   (forall m,
       Transcoder.calls
         (Transcoder.run v p s [Transcoder.Click; Transcoder.FetchRejected m])
         = Transcoder.calls s /\
       Transcoder.isTranscoding
         (Transcoder.run v p s [Transcoder.Click; Transcoder.FetchRejected m])
         = false /\
       Transcoder.inFlight
         (Transcoder.run v p s [Transcoder.Click; Transcoder.FetchRejected m])
         = Transcoder.inFlight s) /\
   (forall m,
       Transcoder.calls
         (Transcoder.run v p s
            [Transcoder.Click; Transcoder.FileFetched; Transcoder.WriteRejected m])
         = (Transcoder.calls s
            ++ [Transcoder.WriteFile (Transcoder.inputFilename p)])%list /\
       Transcoder.isTranscoding
         (Transcoder.run v p s
            [Transcoder.Click; Transcoder.FileFetched; Transcoder.WriteRejected m])
         = false /\
       Transcoder.inFlight
         (Transcoder.run v p s
            [Transcoder.Click; Transcoder.FileFetched; Transcoder.WriteRejected m])
         = Transcoder.inFlight s)) /\
  (Transcoder.accepts v p s = false ->
   Transcoder.calls (Transcoder.step v p s Transcoder.Click) = Transcoder.calls s /\
   Transcoder.inFlight (Transcoder.step v p s Transcoder.Click)
     = Transcoder.inFlight s /\
   Transcoder.fetching (Transcoder.step v p s Transcoder.Click)
     = Transcoder.fetching s /\
   Transcoder.isTranscoding (Transcoder.step v p s Transcoder.Click)
     = Transcoder.isTranscoding s /\
   Transcoder.outputUrl (Transcoder.step v p s Transcoder.Click)
     = Transcoder.outputUrl s /\
   Transcoder.logMessages (Transcoder.step v p s Transcoder.Click)
     = Transcoder.logMessages s).
Proof.
  split.
  - intros Hacc. apply accepts_iff in Hacc.
    destruct Hacc as (Hl & Ht & [a Ha] & Hok).
    destruct (click_accepted v p a s Hl Ht Ha Hok) as (Hrun & Hwait & Hcalls & _).
    pose proof Hrun as (Hr1 & Hr2 & Hr3 & _).
    pose proof Hwait as (Hw1 & Hw2 & Hw3).
    assert (Hlog : Transcoder.logMessages (Transcoder.step v p s Transcoder.Click) = []).
    { unfold Transcoder.step, Transcoder.react.
      destruct (runEffect_fields v p s (Transcoder.handle v p s Transcoder.Click))
        as (_ & _ & _ & _ & -> & _).
      rewrite (handle_click_accepted v p a s Hl Ht Ha Hok). reflexivity. }
    set (s0 := Transcoder.step v p s Transcoder.Click) in *.
    destruct (fetched_step v p a _ _ _ _ _ s0 Hrun Hwait) as (Hrun1 & Hwait1 & _ & Hc1).
    set (s1 := Transcoder.step v p s0 Transcoder.FileFetched) in *.
    destruct (written_step v p a _ _ _ _ _ s1 Hrun1 Hwait1) as (_ & _ & _ & Hc2).
    split; [exact Hcalls |]. split; [exact Hw1 |]. split; [exact Hr1 |].
    split; [exact Hr2 |]. split; [exact Hr3 |]. split; [exact Hlog |].
    split; [change (Transcoder.run v p s [Transcoder.Click; Transcoder.FileFetched])
              with s1; rewrite Hc1, Hcalls; reflexivity |].
    split; [change (Transcoder.run v p s [Transcoder.Click; Transcoder.FileFetched;
                                          Transcoder.FileWritten])
              with (Transcoder.step v p s1 Transcoder.FileWritten);
            rewrite Hc2, Hc1, Hcalls, <- app_assoc; reflexivity |].
    split; intros m.
    + change (Transcoder.run v p s [Transcoder.Click; Transcoder.FetchRejected m])
        with (Transcoder.step v p s0 (Transcoder.FetchRejected m)).
      destruct (rejected_step v p s0 Transcoder.AtFetch m) as (H1 & H2 & H3);
        [simpl; rewrite Hw2; discriminate |].
      rewrite H1, H3, Hw1, Hcalls. auto.
    + change (Transcoder.run v p s [Transcoder.Click; Transcoder.FileFetched;
                                     Transcoder.WriteRejected m])
        with (Transcoder.step v p s1 (Transcoder.WriteRejected m)).
      destruct Hwait1 as (Hx1 & Hx2 & Hx3).
      destruct (rejected_step v p s1 Transcoder.AtWrite m) as (H1 & H2 & H3);
        [simpl; rewrite Hx3; discriminate |].
      rewrite H1, H3, Hx1, Hc1, Hcalls. auto.
  - intros Hrej.
    unfold Transcoder.step, Transcoder.react.
    destruct (runEffect_counters v p s (Transcoder.handle v p s Transcoder.Click))
      as (-> & -> & _ & _ & ->).
    destruct (runEffect_fields v p s (Transcoder.handle v p s Transcoder.Click))
      as (_ & -> & _ & -> & -> & _).
    revert Hrej. unfold Transcoder.accepts. simpl. unfold Transcoder.transcode.
    destruct (Transcoder.isLoaded s); simpl; [| auto 10].
    destruct (Transcoder.isTranscoding s) eqn:Ht; simpl; [rewrite Ht; auto 10 |].
    destruct (Transcoder.videoAnalysis s); simpl; [| rewrite Ht; auto 10].
    destruct (Transcoder.checksResolution v
              && Transcoder.aboveFullHD (Transcoder.settings p)); simpl;
      [auto 10 | discriminate].
Qed.

(** ** File names *)

(** X21.  The extension taken from a file name never contains a dot; a name
    without any dot is taken whole; and the name under which the input is
    written to the engine is "input." followed by a non-empty, dot-free
    extension. *)
Theorem input_name_has_one_clean_extension (p : Transcoder.Props) :
  absent "." (extension (Transcoder.inputFile p)) = true /\
  (absent "." (name (Transcoder.inputFile p)) = true ->
   extension (Transcoder.inputFile p) = name (Transcoder.inputFile p)) /\
  exists e, Transcoder.inputFilename p = "input." ++ e /\ e <> "" /\
            absent "." e = true.
Proof.
  unfold extension, Transcoder.inputFilename.
  pose proof (split_last_absent "." (name (Transcoder.inputFile p))) as Hlast.
  split; [exact Hlast |]. split.
  - intros Hno. rewrite split_absent by exact Hno. reflexivity.
  - unfold extension in *.
    destruct (Js.pop (Js.split "." (name (Transcoder.inputFile p)))) as [| c r] eqn:E.
    + exists "tmp". split; [reflexivity | split; [discriminate | reflexivity]].
    + exists (String c r). split; [reflexivity | split; [discriminate | exact Hlast]].
Qed.

Lemma rendering_starts (inputName : string) (st : OutputSettings) :
  exists rest,
    "ffmpeg " ++ Js.join " " (ffmpegArgs inputName st)
    = "ffmpeg -i " ++ inputName ++ String " " rest.
Proof.
  unfold ffmpegArgs, Js.join. simpl. eexists. reflexivity.
Qed.

(** X22.  The command on display is the rendering of the arguments handed to
    [exec] exactly when the last dot-separated part of the file name is not
    empty. *)
Theorem display_matches_exec_iff_extension (f : File) (st : OutputSettings) :
  Lib.generateFFmpegCommand f st
    = "ffmpeg " ++ Js.join " " (Transcoder.execArgs (Transcoder.mkProps f st))
  <-> extension f <> "".
Proof.
  split.
  - intros Heq Hext.
    unfold Lib.generateFFmpegCommand, Transcoder.execArgs, Transcoder.inputFilename in Heq.
    simpl Transcoder.inputFile in Heq. simpl Transcoder.settings in Heq.
    rewrite Hext in Heq. simpl Js.orElse in Heq.
    destruct (rendering_starts ("input." ++ "mp4") st) as [r1 E1].
    destruct (rendering_starts ("input." ++ "tmp") st) as [r2 E2].
    cbv zeta in Heq. rewrite E1, E2 in Heq. simpl in Heq. discriminate Heq.
  - intros Hext.
    unfold Lib.generateFFmpegCommand, Transcoder.execArgs, Transcoder.inputFilename.
    simpl. destruct (extension f) eqn:E; [congruence | reflexivity].
Qed.

(** ** The diagnostic batch, continued *)

Section BatchFacts.
Import Debug.

Lemma statusOf_reported (o : Settled) : reported (statusOf o) = true.
Proof.
  unfold statusOf. destruct (errorMessage o) as [m |]; [| reflexivity].
  destruct (String.eqb m "Timeout"); reflexivity.
Qed.

Lemma reported_by_outline (rs : list DebugResult) :
  List.length
    (filter (fun r => match status r with Pending => false | _ => true end) rs)
  = List.length (filter (fun x => reported (snd x)) (outline rs)).
Proof.
  induction rs as [| r rs IH]; simpl; [reflexivity |].
  unfold reported at 1. simpl.
  destruct (status r); simpl; rewrite IH; reflexivity.
Qed.

Lemma notify_buffers (m : string) (ls : list Listener) :
  forall rs, map currentLogs (fst (notify m ls rs))
             = map (fun l => (currentLogs l ++ [m])%list) ls.
Proof.
  induction ls as [| l ls IH]; intros rs; simpl; [reflexivity |].
  specialize (IH (updateWhere (res l) (withLogs (currentLogs l ++ [m])) rs)).
  destruct (notify m ls _) as [ls' rs']. simpl in *. rewrite IH. reflexivity.
Qed.

Lemma onLog_calls (m : string) (s : State) :
  calls (onLog m s) = calls s /\ isTesting (onLog m s) = isTesting s /\
  map currentLogs (listeners (onLog m s))
    = map (fun l => (currentLogs l ++ [m])%list) (listeners s).
Proof.
  unfold onLog.
  pose proof (notify_buffers m (listeners s) (debugResults s)) as H.
  destruct (notify m (listeners s) (debugResults s)) as [ls rs]. simpl in *. auto.
Qed.

Lemma logs_calls (ms : list string) :
  forall s,
    calls (fold_left (fun st m => onLog m st) ms s) = calls s /\
    isTesting (fold_left (fun st m => onLog m st) ms s) = isTesting s /\
    map currentLogs (listeners (fold_left (fun st m => onLog m st) ms s))
      = map (fun l => (currentLogs l ++ ms)%list) (listeners s).
Proof.
  induction ms as [| m ms IH]; intros s; simpl.
  - repeat split. rewrite <- (map_id (map currentLogs (listeners s))) at 1.
    rewrite map_map. apply map_ext. intros l. rewrite app_nil_r. reflexivity.
  - destruct (IH (onLog m s)) as (Hc & Ht & Hb).
    destruct (onLog_calls m s) as (Hc' & Ht' & Hb').
    rewrite Hc, Ht, Hc', Ht'. repeat split.
    rewrite Hb.
    rewrite <- (map_map currentLogs (fun b => (b ++ ms)%list)), Hb', map_map.
    apply map_ext. intros l. rewrite <- app_assoc. reflexivity.
Qed.

(** A trial issues one [exec] and appends its lines to every array. *)
Lemma runTrial_calls (inputName r : string) (t : Trial) (s : State) :
  calls (runTrial inputName s r t)
    = (calls s ++ [Transcoder.Exec (trialArgs inputName r)])%list /\
  isTesting (runTrial inputName s r t) = isTesting s /\
  map currentLogs (listeners (runTrial inputName s r t))
    = (map (fun l => (currentLogs l ++ emitted t)%list) (listeners s)
       ++ [emitted t])%list.
Proof.
  unfold runTrial. simpl.
  match goal with |- context [fold_left ?f (emitted t) ?s0] =>
    destruct (logs_calls (emitted t) s0) as (Hc & Ht & Hb) end.
  rewrite Hc, Ht, Hb. simpl. rewrite map_app. simpl. auto.
Qed.

Lemma runTrial_buffers (inputName r : string) (t : Trial) (s : State) :
  map currentLogs (listeners (runTrial inputName s r t))
  = (map (fun b => (b ++ emitted t)%list) (map currentLogs (listeners s))
     ++ [emitted t])%list.
Proof.
  rewrite (proj2 (proj2 (runTrial_calls inputName r t s))), map_map. reflexivity.
Qed.

End BatchFacts.

(** X23.  A batch started on a loaded, idle component whose input is
    written runs to its end: it reports the four resolutions in their fixed
    order, each with the status its own race gave it (success, failed, or
    timeout when the message is "Timeout"), none is left pending, the
    progress bar stands at 100, and the component is idle again.  When the
    fetch or the write of the input is rejected, the batch never ends: all
    four results stay pending, the progress bar stays at 0, [isTesting]
    stays true, and every later start is turned down. *)
Theorem batch_reports_every_trial (f : File) (env : Debug.Env) (s : Debug.State) :
  Debug.isLoaded s = true -> Debug.isTesting s = false ->
  (Debug.upload env = Debug.Uploaded ->
   outline (Debug.debugResults (Debug.runDebugTest (Some f) env s)) =
     [ ("1920x1080", statusOf (Debug.settled (Debug.trial env 0%nat)));
       ("1280x720", statusOf (Debug.settled (Debug.trial env 1%nat)));
       ("854x480", statusOf (Debug.settled (Debug.trial env 2%nat)));
       ("640x360", statusOf (Debug.settled (Debug.trial env 3%nat))) ] /\
   (batchProgress (Debug.debugResults (Debug.runDebugTest (Some f) env s)) == 100)%Q /\
   Debug.isTesting (Debug.runDebugTest (Some f) env s) = false) /\
  (Debug.upload env <> Debug.Uploaded ->
   outline (Debug.debugResults (Debug.runDebugTest (Some f) env s)) =
     [ ("1920x1080", Debug.Pending); ("1280x720", Debug.Pending);
       ("854x480", Debug.Pending); ("640x360", Debug.Pending) ] /\
   (batchProgress (Debug.debugResults (Debug.runDebugTest (Some f) env s)) == 0)%Q /\
   Debug.isTesting (Debug.runDebugTest (Some f) env s) = true /\
   forall f' env',
     Debug.runDebugTest f' env' (Debug.runDebugTest (Some f) env s)
     = Debug.runDebugTest (Some f) env s).
Proof.
  intros Hl Ht. split; intros Hu.
  - pose proof (trial_outcomes_independent f env s Hl Ht Hu) as Hout.
    split; [exact Hout |]. split.
    + unfold batchProgress. rewrite reported_by_outline, Hout. simpl.
      rewrite !statusOf_reported. reflexivity.
    + unfold Debug.runDebugTest. rewrite Hl, Ht, Hu. reflexivity.
  - destruct (upload_failed f env s Hl Ht Hu) as (H1 & H2 & _).
    rewrite H2. split; [reflexivity |]. split; [reflexivity |].
    split; [exact H1 |].
    intros f' env'. apply run_while_testing. exact H1.
Qed.

Lemma batch_reports_every_trial_witness :
  outline (Debug.debugResults (Debug.runDebugTest (Some batchFile) batchEnv Debug.loaded)) =
    [ ("1920x1080", statusOf (Debug.settled (Debug.trial batchEnv 0%nat)));
      ("1280x720", statusOf (Debug.settled (Debug.trial batchEnv 1%nat)));
      ("854x480", statusOf (Debug.settled (Debug.trial batchEnv 2%nat)));
      ("640x360", statusOf (Debug.settled (Debug.trial batchEnv 3%nat))) ] /\
  (batchProgress
     (Debug.debugResults (Debug.runDebugTest (Some batchFile) batchEnv Debug.loaded))
   == 100)%Q /\
  Debug.isTesting (Debug.runDebugTest (Some batchFile) batchEnv Debug.loaded) = false.
Proof.
  apply (proj1 (batch_reports_every_trial batchFile batchEnv Debug.loaded
                  eq_refl eq_refl)).
  reflexivity.
Defined.

(** X24.  Whatever the outcomes of the trials, a batch whose input is
    written calls [writeFile] once and then [exec] once per resolution, in
    order, each time with its own output name: a failed or timed-out trial
    does not stop the batch.  When the fetch or the write of the input is
    rejected, [exec] is not called at all, and [writeFile] is called only if
    the input was fetched. *)
Theorem batch_invokes_engine_once_per_resolution (f : File) (env : Debug.Env)
    (s : Debug.State) :
  Debug.isLoaded s = true -> Debug.isTesting s = false ->
  (Debug.upload env = Debug.Uploaded ->
   Debug.calls (Debug.runDebugTest (Some f) env s)
   = (Debug.calls s
      ++ Transcoder.WriteFile (Debug.inputFilename f)
         :: map (fun r => Transcoder.Exec (Debug.trialArgs (Debug.inputFilename f) r))
                Debug.TEST_RESOLUTIONS)%list) /\
  (Debug.upload env = Debug.WriteFailed ->
   Debug.calls (Debug.runDebugTest (Some f) env s)
   = (Debug.calls s ++ [Transcoder.WriteFile (Debug.inputFilename f)])%list) /\
  (Debug.upload env = Debug.FetchFailed ->
   Debug.calls (Debug.runDebugTest (Some f) env s) = Debug.calls s).
Proof.
  intros Hl Ht. split; [| split]; intros Hu.
  - unfold Debug.runDebugTest. rewrite Hl, Ht, Hu.
    cbn -[Debug.runTrial Debug.trialArgs Debug.inputFilename].
    repeat match goal with
      |- context [Debug.calls (Debug.runTrial ?n ?s0 ?r ?t)] =>
        rewrite (proj1 (runTrial_calls n r t s0))
    end.
    cbn -[Debug.trialArgs Debug.inputFilename].
    rewrite <- !app_assoc. reflexivity.
  - destruct (upload_failed f env s Hl Ht) as (_ & _ & _ & H); [congruence |].
    rewrite H, Hu. reflexivity.
  - destruct (upload_failed f env s Hl Ht) as (_ & _ & _ & H); [congruence |].
    rewrite H, Hu. apply app_nil_r.
Qed.

Lemma batch_invokes_engine_once_per_resolution_witness :
  Debug.calls (Debug.runDebugTest (Some batchFile) batchEnv Debug.loaded)
  = (Debug.calls Debug.loaded
     ++ Transcoder.WriteFile (Debug.inputFilename batchFile)
        :: map (fun r => Transcoder.Exec
                           (Debug.trialArgs (Debug.inputFilename batchFile) r))
               Debug.TEST_RESOLUTIONS)%list.
Proof.
  apply (proj1 (batch_invokes_engine_once_per_resolution batchFile batchEnv
                  Debug.loaded eq_refl eq_refl)).
  reflexivity.
Defined.

(** X25.  No listener is ever removed, so after a batch whose input was
    written each trial's own [currentLogs] array holds the lines of its
    trial and of every later trial of the batch, and the arrays of listeners
    registered before the batch hold all of its lines as well.  A batch
    whose input is not written registers no listener. *)
Theorem trial_arrays_collect_later_lines (f : File) (env : Debug.Env)
    (s : Debug.State) :
  Debug.isLoaded s = true -> Debug.isTesting s = false ->
  (Debug.upload env = Debug.Uploaded ->
   map Debug.currentLogs (Debug.listeners (Debug.runDebugTest (Some f) env s))
   = (map (fun l => Debug.currentLogs l
                    ++ Debug.emitted (Debug.trial env 0%nat)
                    ++ Debug.emitted (Debug.trial env 1%nat)
                    ++ Debug.emitted (Debug.trial env 2%nat)
                    ++ Debug.emitted (Debug.trial env 3%nat))
          (Debug.listeners s)
      ++ [ Debug.emitted (Debug.trial env 0%nat)
           ++ Debug.emitted (Debug.trial env 1%nat)
           ++ Debug.emitted (Debug.trial env 2%nat)
           ++ Debug.emitted (Debug.trial env 3%nat);
           Debug.emitted (Debug.trial env 1%nat)
           ++ Debug.emitted (Debug.trial env 2%nat)
           ++ Debug.emitted (Debug.trial env 3%nat);
           Debug.emitted (Debug.trial env 2%nat)
           ++ Debug.emitted (Debug.trial env 3%nat);
           Debug.emitted (Debug.trial env 3%nat) ])%list) /\
  (Debug.upload env <> Debug.Uploaded ->
   Debug.listeners (Debug.runDebugTest (Some f) env s) = Debug.listeners s).
Proof.
  intros Hl Ht. split; intros Hu.
  - unfold Debug.runDebugTest. rewrite Hl, Ht, Hu.
    cbn -[Debug.runTrial]. rewrite !runTrial_buffers.
    cbn -[Debug.runTrial]. rewrite !map_app, !map_map. simpl.
    rewrite <- !app_assoc. simpl. f_equal.
    apply map_ext. intros l. rewrite <- !app_assoc. reflexivity.
  - apply (upload_failed f env s Hl Ht Hu).
Qed.

Lemma trial_arrays_collect_later_lines_witness :
  map Debug.currentLogs
    (Debug.listeners (Debug.runDebugTest (Some batchFile) batchEnv Debug.loaded))
  = [ ["line A"; "line B"; "line C"; "line D"]; ["line B"; "line C"; "line D"];
      ["line C"; "line D"]; ["line D"] ].
Proof.
  apply (proj1 (trial_arrays_collect_later_lines batchFile batchEnv Debug.loaded
                  eq_refl eq_refl)).
  reflexivity.
Defined.
